(** * psyflow-mcp: template selection and build orchestration

    A shallow embedding of [psyflow_mcp/main.py] (the catalog, the branch
    inspector, the repository cache, the prompt builders and [build_task]),
    followed by the properties of the specification that concern them.

    Conventions of the model.
    - A Python [str] is modelled by its UTF-8 encoding, a [string] of
      bytes: a character is a lead byte followed by its continuation
      bytes, and slicing and iteration go by characters ([take_chars],
      [chars_of]).  Substring tests, joins and the replacement of one
      ASCII character by another are the same on the encoding.
    - [lower] lowers the ASCII letters, which is [str.lower] on ASCII text
      (repository names on the hosting service are ASCII).  Where a
      property has to hold for every text, the lowering function is a
      parameter that stands for [str.lower] and of which nothing is
      assumed ([first_match_by], [build_task_by]).
    - A per-call computation that talks to the network or to the disk is a
      function from a [world] to an outcome and a new [world]; a raised
      exception is the [Raise] outcome.
    - The remote side (HTTP responses, whether a git clone succeeds) is a
      [remote], fixed during one call. *)

From Stdlib Require Import Ascii.
From stdpp Require Import base strings list gmap pretty.

Local Open Scope Z_scope.
#[local] Arguments String.append !_ _ / : simpl nomatch.

(** ** Python values and exceptions *)

Inductive exn : Type :=
  | HTTPStatusError      (* httpx: raise_for_status on a non-success status *)
  | TransportError       (* httpx: timeout, connection failure *)
  | JSONDecodeError      (* Response.json() on a body that is not JSON *)
  | TypeError
  | KeyError
  | AttributeError
  | ValueError (msg : string)
  | GitCommandError.     (* GitPython: the clone failed *)

Inductive result (A : Type) : Type :=
  | Ok (a : A)
  | Raise (e : exn).
Arguments Ok {A} a.
Arguments Raise {A} e.

Definition result_bind {A B} (f : A → result B) (r : result A) : result B :=
  match r with
  | Ok a => f a
  | Raise e => Raise e
  end.

#[global] Instance result_ret : MRet result := @Ok.
#[global] Instance result_mbind : MBind result := @result_bind.

(** The hashable values a JSON document can hold.  A float is carried by
    its printed form, the only thing this program can observe of it. *)
Inductive scalar : Type :=
  | SNone
  | SBool (b : bool)
  | SInt (z : Z)
  | SFloat (shown : string)
  | SStr (s : string).

#[local] Set Warnings "-register-all".

(** What [Response.json()] produces.  An object keeps its members in
    insertion order, keys distinct. *)
Inductive json : Type :=
  | JScalar (v : scalar)
  | JArr (xs : list json)
  | JObj (kvs : list (string * json)).

(** ** Builtins on strings *)

Definition NL : string := String "010"%char "".

Definition lower_char (c : ascii) : ascii :=
  let n := N_of_ascii c in
  if ((65 <=? n) && (n <=? 90))%N then ascii_of_N (n + 32) else c.

(** [s.lower()] *)
Fixpoint lower (s : string) : string :=
  match s with
  | EmptyString => EmptyString
  | String c s' => String (lower_char c) (lower s')
  end.

(** [b.startswith(a)] *)
Fixpoint startswith (a b : string) : bool :=
  match a, b with
  | EmptyString, _ => true
  | String _ _, EmptyString => false
  | String x a', String y b' => bool_decide (x = y) && startswith a' b'
  end.

(** [a in b] on two strings *)
Fixpoint str_in (a b : string) : bool :=
  startswith a b ||
  match b with
  | EmptyString => false
  | String _ b' => str_in a b'
  end.

(** A continuation byte of a UTF-8 sequence (binary 10xxxxxx); every
    other byte starts a character. *)
Definition is_continuation (c : ascii) : bool :=
  let n := N_of_ascii c in ((128 <=? n) && (n <? 192))%N.

(** [len(s)]: the number of characters *)
Fixpoint char_length (s : string) : nat :=
  match s with
  | EmptyString => O
  | String c s' => if is_continuation c then char_length s' else S (char_length s')
  end.

(** [s[:n]]: the first [n] characters, each with all its bytes *)
Fixpoint take_chars (n : nat) (s : string) : string :=
  match s with
  | EmptyString => EmptyString
  | String c s' =>
      if is_continuation c then String c (take_chars n s')
      else match n with
           | O => EmptyString
           | S n' => String c (take_chars n' s')
           end
  end.

(** [list(s)]: the characters of [s], each a string of its own *)
Fixpoint chars_of (s : string) : list string :=
  match s with
  | EmptyString => []
  | String c s' =>
      let rest := chars_of s' in
      match s' with
      | String c' _ =>
          if is_continuation c' then
            match rest with
            | x :: more => String c x :: more
            | [] => [String c ""]
            end
          else String c "" :: rest
      | EmptyString => String c "" :: rest
      end
  end.

(** [s * n] *)
Fixpoint str_repeat (n : nat) (s : string) : string :=
  match n with
  | O => ""
  | S n' => s +:+ str_repeat n' s
  end.

(** [s.replace(old, new)] for one-character [old] and [new] *)
Fixpoint replace_char (old new : ascii) (s : string) : string :=
  match s with
  | EmptyString => EmptyString
  | String c s' =>
      String (if bool_decide (c = old) then new else c) (replace_char old new s')
  end.

(** [sep.join(xs)] *)
Fixpoint join (sep : string) (xs : list string) : string :=
  match xs with
  | [] => ""
  | [x] => x
  | x :: rest => x +:+ sep +:+ join sep rest
  end.

(** [s.split(sep)] for a one-character separator *)
Fixpoint split_on (sep : ascii) (s : string) : list string :=
  match s with
  | EmptyString => [""]
  | String c s' =>
      if bool_decide (c = sep) then "" :: split_on sep s'
      else match split_on sep s' with
           | [] => [String c ""]
           | x :: rest => String c x :: rest
           end
  end.

(** [template.format] with keyword arguments, for a template whose
    replacement fields are plain keyword names (the only kind the program's
    template has); doubled braces are literal braces.  [field] is the name being read, if any.
    The values are inserted as they are and never scanned again. *)
Fixpoint format_go (kw : string → option string) (field : option string)
    (s : string) : result string :=
  match s with
  | EmptyString =>
      match field with
      | None => Ok ""
      | Some _ => Raise (ValueError "expected '}' before end of string")
      end
  | String c s' =>
      match field with
      | Some name =>
          if bool_decide (c = "}"%char) then
            match kw name with
            | Some v => rest ← format_go kw None s'; Ok (v +:+ rest)
            | None => Raise KeyError
            end
          else format_go kw (Some (name +:+ String c "")) s'
      | None =>
          if bool_decide (c = "{"%char) then
            match s' with
            | String c2 s'' =>
                if bool_decide (c2 = "{"%char)
                then rest ← format_go kw None s''; Ok (String c rest)
                else format_go kw (Some "") s'
            | EmptyString => Raise (ValueError "Single '{' encountered in format string")
            end
          else if bool_decide (c = "}"%char) then
            match s' with
            | String c2 s'' =>
                if bool_decide (c2 = "}"%char)
                then rest ← format_go kw None s''; Ok (String c rest)
                else Raise (ValueError "Single '}' encountered in format string")
            | EmptyString => Raise (ValueError "Single '}' encountered in format string")
            end
          else rest ← format_go kw None s'; Ok (String c rest)
      end
  end.

Definition format (template : string) (kw : string → option string) : result string :=
  format_go kw None template.

(** [str(v)], which is also what an f-string field prints *)
Definition py_str (v : scalar) : string :=
  match v with
  | SNone => "None"
  | SBool true => "True"
  | SBool false => "False"
  | SInt z => pretty z
  | SFloat shown => shown
  | SStr s => s
  end.

(** [v.lower()]: only a [str] has the method *)
Definition py_lower (v : scalar) : result string :=
  match v with
  | SStr s => Ok (lower s)
  | _ => Raise AttributeError
  end.

(** ** Builtins on decoded JSON *)

(** [for x in v]: the elements of a list, the keys of a dict, the
    characters of a string; anything else is not iterable. *)
Definition py_iter (v : json) : result (list json) :=
  match v with
  | JArr xs => Ok xs
  | JObj kvs => Ok ((λ kv, JScalar (SStr kv.1)) <$> kvs)
  | JScalar (SStr s) => Ok ((λ c, JScalar (SStr c)) <$> chars_of s)
  | JScalar _ => Raise TypeError
  end.

Fixpoint assoc (key : string) (kvs : list (string * json)) : option json :=
  match kvs with
  | [] => None
  | (k, v) :: rest => if bool_decide (k = key) then Some v else assoc key rest
  end.

(** [v[key]] for a string key: only a dict accepts it. *)
Definition py_getitem (v : json) (key : string) : result json :=
  match v with
  | JObj kvs =>
      match assoc key kvs with
      | Some x => Ok x
      | None => Raise KeyError
      end
  | _ => Raise TypeError
  end.

(** Hashing, as a set-membership test needs it: lists and dicts are
    unhashable. *)
Definition py_hashable (v : json) : result scalar :=
  match v with
  | JScalar s => Ok s
  | _ => Raise TypeError
  end.

(** [v in names] for a set of strings: only an equal string is a member. *)
Definition in_str_set (v : scalar) (names : gset string) : bool :=
  match v with
  | SStr s => bool_decide (s ∈ names)
  | _ => false
  end.

(** [bool(s)] on a string *)
Definition truthy (s : string) : bool := negb (bool_decide (s = "")).

(** [bool(o)] on an optional string: [None] and the empty string are false. *)
Definition truthy_opt (o : option string) : bool :=
  match o with
  | Some s => truthy s
  | None => false
  end.

(** ** The outside world *)

(** An HTTP response, as far as the program reads it: the status code, the
    decoded text, and the JSON the body decodes to ([None] when
    [Response.json()] raises). *)
Record response : Type := Response {
  status_code : Z;
  text : string;
  json_body : option json;
}.

(** The outcome of [await c.get(url, timeout=_)]: a response, or an
    exception for a request that did not complete (timeout, connection
    failure). *)
Inductive fetch : Type :=
  | Got (r : response)
  | Failed.

Record remote : Type := Remote {
  http_get : string → fetch;          (* by URL *)
  git_clone_ok : string → bool;       (* by remote URL: does the clone succeed *)
}.

(** What a call can change or leave a trace in: the paths that exist on
    disk, the clones that were started (remote URL, destination) and the
    URLs that were requested, oldest first. *)
Record world : Type := World {
  dirs : gset string;
  git_log : list (string * string);
  http_log : list string;
}.

Definition M (A : Type) : Type := world → result A * world.

Definition M_ret {A} (a : A) : M A := λ w, (Ok a, w).

Definition M_bind {A B} (f : A → M B) (m : M A) : M B :=
  λ w, match m w with
       | (Ok a, w') => f a w'
       | (Raise e, w') => (Raise e, w')
       end.

#[global] Instance M_mret : MRet M := @M_ret.
#[global] Instance M_mbind : MBind M := @M_bind.

(** A computation that touches nothing *)
Definition lift {A} (r : result A) : M A := λ w, (r, w).

Definition raise {A} (e : exn) : M A := lift (Raise e).

(** [await c.get(url, timeout=_)] *)
Definition get (net : remote) (url : string) : M response :=
  λ w,
    let w' := World (dirs w) (git_log w) (http_log w ++ [url]) in
    match http_get net url with
    | Got r => (Ok r, w')
    | Failed => (Raise TransportError, w')
    end.

(** [r.raise_for_status()] *)
Definition raise_for_status (r : response) : result unit :=
  if bool_decide (200 ≤ status_code r < 300) then Ok () else Raise HTTPStatusError.

(** [r.json()] *)
Definition json_of (r : response) : result json :=
  match json_body r with
  | Some j => Ok j
  | None => Raise JSONDecodeError
  end.

(** ** Config *)

Definition ORG : string := "TaskBeacon".
Definition CACHE : string := "task_cache".

Definition NON_TASK_REPOS : gset string :=
  list_to_set
    ["task-registry"; ".github"; "psyflow"; "psyflow-mcp"; "community";
     "taskbeacon.github.io"].

(** [CACHE / repo], printed; for a name that is one path component *)
Definition cache_dest (repo : string) : string := CACHE +:+ "/" +:+ repo.

(** ** Prompts *)

(** A prompt message: the role and the text of its content. *)
Record Message : Type := mkMessage {
  role : string;
  content : string;
}.

Definition UserMessage (c : string) : Message := mkMessage "user" c.

(** The template after [textwrap.dedent(...).strip()]. *)
Definition _PROMPT_TEMPLATE : string :=
  join NL [
    "Turn my existing {source_task} implementation in PsyFlow/TAPs into a {target_task} task with as few changes as possible.";
    "";
    "Breakdown:";
    "";
    "Stage 0: Plan";
    "* Read literature and figure out what a typical {target_task} task looks like";
    "* Define the flow: blocks → trials → events";
    "* Identify stimulus types, response keys, timing parameters, and key output fields";
    "";
    "Stage 1: config.yaml";
    "* Adapt the existing config.yaml to run a {target_task} task";
    "* Highlight any parameters that need careful review";
    "";
    "Stage 2: Trial logic (src/run_trial.py)";
    "* Adapt one existing trial template to run a single {target_task} trial";
    "* (Optional) If needed, add helpers in src/utils.py; otherwise skip";
    "";
    "Stage 3: Block/session logic (main.py)";
    "* Implement block order, feedback screens, and pauses based on the template task";
    "* Keep the public API consistent with the original task";
    "";
    "Stage 4: README.md";
    "* Match the structure and tone of existing tasks";
    "* Cover: purpose, install steps, config details, run instructions, and expected outputs";
    "";
    "Stage 5: Static validation";
    "* Check that config.yaml keys line up with code references";
    "* Ensure logged DataFrame columns match the template task";
    "* Verify naming, docstrings, and imports follow PsyFlow conventions";
    "* Confirm variables such as timing and triggers match between run_trial.py and config.yaml";
    "* Spot any logic errors or unused variables";
    "";
    "(No PsychoPy runtime or unit tests are required during this step)"
  ].

Definition transform_kw (source_task target_task : string) (name : string) : option string :=
  if bool_decide (name = "source_task") then Some source_task
  else if bool_decide (name = "target_task") then Some target_task
  else None.

Definition transform_prompt (source_task target_task : string) : result Message :=
  rendered ← format _PROMPT_TEMPLATE (transform_kw source_task target_task);
  Ok (UserMessage rendered).

Definition translate_config_prompt (yaml_text target_language : string) : list Message :=
  let intro :=
    "Translate selected fields of this PsyFlow config into " +:+ target_language +:+ ". "
    +:+ "Translate ONLY:" +:+ NL
    +:+ "  • subinfo_mapping values" +:+ NL
    +:+ "  • stimuli entries of type 'text' or 'textbox' (the `text` field)" +:+ NL +:+ NL
    +:+ "Return the COMPLETE YAML with translated values — no commentary." in
  [UserMessage intro; UserMessage yaml_text].

(** One entry of the candidate list: the dict with keys [repo] and
    [readme_snippet]. *)
Record candidate : Type := mkCandidate {
  repo : scalar;
  readme_snippet : string;
}.

Definition menu_line (c : candidate) : string :=
  "- **" +:+ py_str (repo c) +:+ "**: " +:+ readme_snippet c.

Definition choose_template_prompt (desc : string) (candidates : list candidate)
    : list Message :=
  let criteria :=
    "- Prefer tasks with the same **response mapping paradigm** "
    +:+ "(e.g. 2-choice left/right, go/no-go, continuous RT)." +:+ NL
    +:+ "- Prefer tasks whose **trial/block flow** most closely matches "
    +:+ "the requested task’s flow." +:+ NL
    +:+ "- If several are equally close, choose the repo that appears to "
    +:+ "need the **fewest code edits** (smaller conceptual jump)." +:+ NL in
  let intro :=
    "You are given a desired task description plus candidate PsyFlow "
    +:+ "template repositories." +:+ NL +:+ NL
    +:+ "Select the **one** template that will require the LEAST effort to "
    +:+ "transform into the desired task, using these tie-breakers:" +:+ NL
    +:+ criteria +:+ NL
    +:+ "Respond with **only** the repo name on a single line." +:+ NL
    +:+ "If NONE of the templates are reasonably close, respond with `NONE`." in
  let joined := join NL (menu_line <$> candidates) in
  let menu := if truthy joined then joined else "(no templates found)" in
  [UserMessage intro;
   UserMessage ("Desired task:" +:+ NL +:+ desc);
   UserMessage ("Candidate templates:" +:+ NL +:+ menu)].

(** ** Helpers *)

Definition repos_url : string :=
  "https://api.github.com/orgs/" +:+ ORG +:+ "/repos?per_page=100".

Definition branches_url (repo : string) : string :=
  "https://api.github.com/repos/" +:+ ORG +:+ "/" +:+ repo +:+ "/branches?per_page=100".

Definition readme_url (repo : string) : string :=
  "https://raw.githubusercontent.com/" +:+ ORG +:+ "/" +:+ repo +:+ "/main/README.md".

Definition clone_url (repo : string) : string :=
  "https://github.com/" +:+ ORG +:+ "/" +:+ repo +:+ ".git".

Definition _github_repos (net : remote) : M json :=
  r ← get net repos_url;
  _ ← lift (raise_for_status r);
  lift (json_of r).

(** [[b["name"] for b in xs]] *)
Fixpoint names_of (xs : list json) : result (list json) :=
  match xs with
  | [] => Ok []
  | b :: rest =>
      n ← py_getitem b "name";
      ns ← names_of rest;
      Ok (n :: ns)
  end.

Definition _repo_branches (net : remote) (repo : string) : M (list json) :=
  r ← get net (branches_url repo);
  lift (body ← json_of r;
        xs ← py_iter body;
        ns ← names_of xs;
        Ok (take 20 ns)).

(** [[r["name"] for r in xs if r["name"] not in NON_TASK_REPOS]]: the test
    hashes the name, so a name that is a list or a dict raises. *)
Fixpoint task_names (xs : list json) : result (list scalar) :=
  match xs with
  | [] => Ok []
  | r :: rest =>
      n ← py_getitem r "name";
      h ← py_hashable n;
      if in_str_set h NON_TASK_REPOS then task_names rest
      else (ns ← task_names rest; Ok (h :: ns))
  end.

Definition task_repos (net : remote) : M (list scalar) :=
  body ← _github_repos net;
  lift (xs ← py_iter body; task_names xs).

Definition clone (net : remote) (repo : string) : M string :=
  λ w,
    let dest := cache_dest repo in
    if bool_decide (dest ∈ dirs w) then (Ok dest, w)
    else
      let url := clone_url repo in
      let started := git_log w ++ [(url, dest)] in
      if git_clone_ok net url
      then (Ok dest, World ({[dest]} ∪ dirs w) started (http_log w))
      else (Raise GitCommandError, World (dirs w) started (http_log w)).

(** ** Tools *)

(** The two shapes of the dict [build_task] returns. *)
Inductive build_result : Type :=
  | Built (prompt : string) (template_path : string)
  | Selection (prompt_messages : list Message) (note : string).

(** [next((r for r in repos if source.lower() in r.lower()), None)] *)
Fixpoint first_match (source_task : string) (repos : list scalar)
    : result (option string) :=
  match repos with
  | [] => Ok None
  | r :: rest =>
      rl ← py_lower r;
      if str_in (lower source_task) rl
      then Ok (Some (py_str r))
      else first_match source_task rest
  end.

(** [rd.text[:2000].replace("\n", " ") if rd.status_code == 200 else ""] *)
Definition snippet_of (rd : response) : string :=
  if bool_decide (status_code rd = 200)
  then replace_char "010"%char " "%char (take_chars 2000 (text rd))
  else "".

(** The loop of the second branch, one README request per repository. *)
Fixpoint gather_snippets (net : remote) (repos : list scalar) : M (list candidate) :=
  match repos with
  | [] => mret []
  | r :: rest =>
      rd ← get net (readme_url (py_str r));
      cs ← gather_snippets net rest;
      mret (mkCandidate r (snippet_of rd) :: cs)
  end.

Definition build_note : string :=
  "Reply with chosen repo, then call build_task again with source_task=<repo>.".

Definition build_task (net : remote) (target_task : string)
    (source_task : option string) : M build_result :=
  repos ← task_repos net;
  if truthy_opt source_task then
    (* branch 1 : explicit source *)
    let source := default "" source_task in
    found ← lift (first_match source repos);
    if truthy_opt found then
      path ← clone net (default "" found);
      msg ← lift (transform_prompt source target_task);
      mret (Built (content msg) path)
    else raise (ValueError "Template repo not found.")
  else
    (* branch 2 : no source, build the menu *)
    snippets ← gather_snippets net repos;
    mret (Selection
            (choose_template_prompt ("A " +:+ target_task +:+ " task.") snippets)
            build_note).

(** [build_task] once more, for any lowering function: [low] stands for
    [str.lower], of which nothing is assumed.  At [lower] these are the
    definitions above. *)
Definition py_lower_by (low : string → string) (v : scalar) : result string :=
  match v with
  | SStr s => Ok (low s)
  | _ => Raise AttributeError
  end.

Fixpoint first_match_by (low : string → string) (source_task : string)
    (repos : list scalar) : result (option string) :=
  match repos with
  | [] => Ok None
  | r :: rest =>
      rl ← py_lower_by low r;
      if str_in (low source_task) rl
      then Ok (Some (py_str r))
      else first_match_by low source_task rest
  end.

Definition build_task_by (low : string → string) (net : remote)
    (target_task : string) (source_task : option string) : M build_result :=
  repos ← task_repos net;
  if truthy_opt source_task then
    (* branch 1 : explicit source *)
    let source := default "" source_task in
    found ← lift (first_match_by low source repos);
    if truthy_opt found then
      path ← clone net (default "" found);
      msg ← lift (transform_prompt source target_task);
      mret (Built (content msg) path)
    else raise (ValueError "Template repo not found.")
  else
    (* branch 2 : no source, build the menu *)
    snippets ← gather_snippets net repos;
    mret (Selection
            (choose_template_prompt ("A " +:+ target_task +:+ " task.") snippets)
            build_note).

(** [repo in repos] for a [str] and a list: equality with some element,
    and only a string is equal to a string. *)
Definition str_in_list (name : string) (repos : list scalar) : bool :=
  existsb (λ v, match v with SStr s => bool_decide (name = s) | _ => false end) repos.

(** Returns the value of the one key, [template_path], of the dict. *)
Definition download_task (net : remote) (name : string) : M string :=
  repos ← task_repos net;
  if negb (str_in_list name repos) then
    raise (ValueError "Repo not found or not a task template.")
  else
    path ← clone net name;
    mret path.

(** One entry of [list_tasks]: the dict with keys [repo], [readme_snippet]
    and [branches]. *)
Module Entry.
Record t : Type := mk {
  repo : scalar;
  readme_snippet : string;
  branches : list json;
}.
End Entry.

(** The local [build_entry] of [list_tasks]. *)
Definition build_entry (net : remote) (r : scalar) : M Entry.t :=
  rd ← get net (readme_url (py_str r));
  let snippet := snippet_of rd in
  branches ← _repo_branches net (py_str r);
  mret (Entry.mk r snippet branches).

(** [asyncio.gather] over the entries, which returns the results in the
    order of the repositories.  The entries run here one after the other, in
    catalog order.  The interleaving of their requests and, when several
    entries raise, which exception surfaces depend on the scheduler; the
    properties below speak of neither. *)
Fixpoint gather_entries (net : remote) (repos : list scalar) : M (list Entry.t) :=
  match repos with
  | [] => mret []
  | r :: rest =>
      e ← build_entry net r;
      es ← gather_entries net rest;
      mret (e :: es)
  end.

Definition list_tasks (net : remote) : M (list Entry.t) :=
  repos ← task_repos net;
  entries ← gather_entries net repos;
  mret ([] ++ entries).

(** A [pathlib] path as the program builds it: from a string, or by [/]. *)
Inductive path : Type :=
  | Path (s : string)
  | Join (parent : path) (child : string).

(** The local files, as far as [translate_config] reads them: whether a
    path exists, and the text of a file ([None] when reading raises: a
    directory, bytes that are not UTF-8). *)
Record files : Type := Files {
  path_exists : path → bool;
  read_text : path → option string;
}.

Inductive fs_outcome (A : Type) : Type :=
  | Returned (a : A)
  | FileNotFoundError (msg : string)
  | ReadError.
Arguments Returned {A} a.
Arguments FileNotFoundError {A} msg.
Arguments ReadError {A}.

(** Returns the value of the one key, [prompt_messages], of the dict. *)
Definition translate_config (fs : files) (task_path target_language : string)
    : fs_outcome (list Message) :=
  let cfg_path := Join (Path task_path) "config.yaml" in
  if negb (path_exists fs cfg_path) then
    FileNotFoundError "config.yaml not found in given path."
  else
    match read_text fs cfg_path with
    | Some yaml_text => Returned (translate_config_prompt yaml_text target_language)
    | None => ReadError
    end.

(** ** Vocabulary of the specification *)

(** Case-insensitive substring containment of [source] in a repository
    [name], as the specification words it. *)
Definition ci_contains (source name : string) : Prop :=
  ∃ pre post, lower name = pre +:+ lower source +:+ post.

(** The same for any lowering function. *)
Definition ci_contains_by (low : string → string) (source name : string) : Prop :=
  ∃ pre post, low name = pre +:+ low source +:+ post.

(** The rendered transformation prompt, with the two labels at the
    substitution points of the template. *)
Definition rendered_prompt (source_task target_task : string) : string :=
  "Turn my existing " +:+ source_task
  +:+ " implementation in PsyFlow/TAPs into a " +:+ target_task
  +:+ join NL [
        " task with as few changes as possible.";
        "";
        "Breakdown:";
        "";
        "Stage 0: Plan";
        "* Read literature and figure out what a typical " ]
  +:+ target_task
  +:+ join NL [
        " task looks like";
        "* Define the flow: blocks → trials → events";
        "* Identify stimulus types, response keys, timing parameters, and key output fields";
        "";
        "Stage 1: config.yaml";
        "* Adapt the existing config.yaml to run a " ]
  +:+ target_task
  +:+ join NL [
        " task";
        "* Highlight any parameters that need careful review";
        "";
        "Stage 2: Trial logic (src/run_trial.py)";
        "* Adapt one existing trial template to run a single " ]
  +:+ target_task
  +:+ join NL [
        " trial";
        "* (Optional) If needed, add helpers in src/utils.py; otherwise skip";
        "";
        "Stage 3: Block/session logic (main.py)";
        "* Implement block order, feedback screens, and pauses based on the template task";
        "* Keep the public API consistent with the original task";
        "";
        "Stage 4: README.md";
        "* Match the structure and tone of existing tasks";
        "* Cover: purpose, install steps, config details, run instructions, and expected outputs";
        "";
        "Stage 5: Static validation";
        "* Check that config.yaml keys line up with code references";
        "* Ensure logged DataFrame columns match the template task";
        "* Verify naming, docstrings, and imports follow PsyFlow conventions";
        "* Confirm variables such as timing and triggers match between run_trial.py and config.yaml";
        "* Spot any logic errors or unused variables";
        "";
        "(No PsychoPy runtime or unit tests are required during this step)" ].

(** The disk part of the world is untouched between [w] and [w']: no
    directory appeared and no clone was started. *)
Definition same_disk (w w' : world) : Prop :=
  dirs w' = dirs w ∧ git_log w' = git_log w.

(** A character occurs in a string. *)
Fixpoint has_char (c : ascii) (s : string) : bool :=
  match s with
  | EmptyString => false
  | String x s' => bool_decide (x = c) || has_char c s'
  end.

(** A repository object of the hosting API carrying the string name [n]. *)
Definition named (x : json) (n : string) : Prop :=
  py_getitem x "name" = Ok (JScalar (SStr n)).

(** The description [build_task] hands to the selector: [f"A {target_task} task."] *)
Definition desired (target : string) : string := "A " +:+ target +:+ " task.".

(** A repository whose entry can be built: the README request completes,
    and the branch request completes with a list of named branches. *)
Definition listable (net : remote) (r : scalar) (rd : response) (names : list string)
    : Prop :=
  http_get net (readme_url (py_str r)) = Got rd
  ∧ ∃ rb xs,
      http_get net (branches_url (py_str r)) = Got rb
      ∧ json_body rb = Some (JArr xs)
      ∧ Forall2 named xs names.

(** A lowering function that, beyond the ASCII letters, knows one of the
    characters [str.lower] maps into ASCII: U+212A KELVIN SIGN (bytes 226,
    132, 170), lowered to [k]. *)
Fixpoint kelvin_lower (s : string) : string :=
  match s with
  | EmptyString => EmptyString
  | String c s' =>
      match s' with
      | String c1 (String c2 rest) =>
          if bool_decide (c = "226"%char) && bool_decide (c1 = "132"%char)
             && bool_decide (c2 = "170"%char)
          then String "k"%char (kelvin_lower rest)
          else String (lower_char c) (kelvin_lower s')
      | _ => String (lower_char c) (kelvin_lower s')
      end
  end.

(** ** Example worlds *)

(** A repository object as the hosting API lists it (two of its fields). *)
Definition repo_obj (id : Z) (name : string) : json :=
  JObj [("id", JScalar (SInt id)); ("name", JScalar (SStr name))].

(** A branch object as the hosting API lists it. *)
Definition branch_obj (name : string) : json :=
  JObj [("name", JScalar (SStr name)); ("protected", JScalar (SBool false))].

(** The body the hosting API sends with a 404. *)
Definition not_found_body : json :=
  JObj [("message", JScalar (SStr "Not Found"));
        ("documentation_url", JScalar (SStr "https://docs.github.com/rest"));
        ("status", JScalar (SStr "404"))].

Definition not_found : response := Response 404 "404: Not Found" None.

(** The organisation of the end-to-end example of the specification: two
    task repositories and one infrastructure repository.  The first has a
    README, the second has none; every clone succeeds. *)
Definition example_catalog : json :=
  JArr [repo_obj 1 "stroop-task"; repo_obj 2 "gonogo-task"; repo_obj 3 "task-registry"].

Definition example_net : remote :=
  Remote
    (λ url,
       if bool_decide (url = repos_url) then
         Got (Response 200 "" (Some example_catalog))
       else if bool_decide (url = readme_url "stroop-task") then
         Got (Response 200 ("# Stroop" +:+ NL +:+ "A colour-word task.") None)
       else Got not_found)
    (λ _, true).

(** The same organisation on a day the README of the second repository
    times out. *)
Definition timeout_net : remote :=
  Remote
    (λ url,
       if bool_decide (url = readme_url "gonogo-task") then Failed
       else http_get example_net url)
    (λ _, true).

(** A repository with eleven branches, and one whose branch listing is
    answered with a 404. *)
Definition eleven_branches : list string :=
  ["main"; "dev"; "b3"; "b4"; "b5"; "b6"; "b7"; "b8"; "b9"; "b10"; "b11"].

Definition branches_net : remote :=
  Remote
    (λ url,
       if bool_decide (url = branches_url "stroop-task") then
         Got (Response 200 "" (Some (JArr (branch_obj <$> eleven_branches))))
       else if bool_decide (url = branches_url "gone-task") then
         Got (Response 404 "" (Some not_found_body))
       else Got not_found)
    (λ _, true).

(** A fresh cache: nothing on disk, nothing requested yet. *)
Definition fresh : world := World ∅ [] [].

(** The example organisation with its branch listings: two branches for
    the first repository, one for the second. *)
Definition listing_net : remote :=
  Remote
    (λ url,
       if bool_decide (url = branches_url "stroop-task") then
         Got (Response 200 "" (Some (JArr [branch_obj "main"; branch_obj "dev"])))
       else if bool_decide (url = branches_url "gonogo-task") then
         Got (Response 200 "" (Some (JArr [branch_obj "main"])))
       else http_get example_net url)
    (λ _, true).

(** The same, on a day the branch listing of the second repository is
    answered with a 404. *)
Definition listing_net_404 : remote :=
  Remote
    (λ url,
       if bool_decide (url = branches_url "gonogo-task") then
         Got (Response 404 "" (Some not_found_body))
       else http_get listing_net url)
    (λ _, true).

(** The example organisation on a day the hosting API refuses the catalog
    request. *)
Definition refused_net : remote :=
  Remote
    (λ url,
       if bool_decide (url = repos_url) then
         Got (Response 403 "rate limit exceeded" (Some not_found_body))
       else http_get example_net url)
    (λ _, true).

(** An organisation where an earlier name contains a later one. *)
Definition shadow_net : remote :=
  Remote
    (λ url,
       if bool_decide (url = repos_url) then
         Got (Response 200 ""
                (Some (JArr [repo_obj 1 "stroop-task-v2"; repo_obj 2 "stroop-task"])))
       else Got not_found)
    (λ _, true).

(** A cache holding the first repository, cloned by an earlier call. *)
Definition warm : world :=
  World {["task_cache/stroop-task"]}
    [("https://github.com/TaskBeacon/stroop-task.git", "task_cache/stroop-task")]
    [repos_url].

(** Local files with one task directory and its configuration. *)
Definition example_files : files :=
  Files
    (λ p, match p with
          | Join (Path dir) child =>
              bool_decide (dir = "task_cache/stroop-task") && bool_decide (child = "config.yaml")
          | _ => false
          end)
    (λ p, match p with
          | Join (Path dir) child =>
              if bool_decide (dir = "task_cache/stroop-task") && bool_decide (child = "config.yaml")
              then Some "stimuli: [{type: text, text: Hello}]" else None
          | _ => None
          end).

(** ** Strings *)

Lemma app_nil_r_str (s : string) : s +:+ "" = s.
Proof. induction s as [|c s IH]; simpl; [done | by f_equal]. Qed.

Lemma app_assoc_str (a b c : string) : (a +:+ b) +:+ c = a +:+ b +:+ c.
Proof. induction a as [|x a IH]; simpl; [done | by f_equal]. Qed.

Lemma startswith_spec (a b : string) :
  startswith a b = true ↔ ∃ post, b = a +:+ post.
Proof.
  revert b. induction a as [|x a IH]; intros b; simpl.
  - split; [intros _; by exists b | done].
  - destruct b as [|y b].
    + split; [done | intros [post H]; discriminate].
    + rewrite andb_true_iff, bool_decide_eq_true, IH. split.
      * intros [-> [post ->]]. by exists post.
      * intros [post H]. injection H as -> ->. eauto.
Qed.

Lemma str_in_spec (a b : string) :
  str_in a b = true ↔ ∃ pre post, b = pre +:+ a +:+ post.
Proof.
  induction b as [|y b IH]; simpl; rewrite orb_true_iff, startswith_spec.
  - split.
    + intros [[post H] | ?]; [| done]. exists "", post. done.
    + intros [pre [post H]]. left. destruct pre; [by exists post | discriminate].
  - rewrite IH. split.
    + intros [[post H] | [pre [post H]]].
      * exists "", post. done.
      * exists (String y pre), post. simpl. by rewrite H.
    + intros [pre [post H]]. destruct pre as [|p pre]; simpl in H.
      * left. by exists post.
      * right. injection H as -> ->. eauto.
Qed.

Lemma str_in_ci_contains (source name : string) :
  str_in (lower source) (lower name) = true ↔ ci_contains source name.
Proof. apply str_in_spec. Qed.

Lemma lower_empty_inv (s : string) : lower s = "" → s = "".
Proof. by destruct s. Qed.

Lemma ci_contains_nonempty (source name : string) :
  source ≠ "" → ci_contains source name → name ≠ "".
Proof.
  intros Hs [pre [post H]] ->. simpl in H.
  destruct pre; simpl in H; [| discriminate].
  destruct (lower source) eqn:E; [| discriminate].
  by apply lower_empty_inv in E.
Qed.

Lemma truthy_true (s : string) : s ≠ "" → truthy s = true.
Proof. intros H. unfold truthy. by rewrite bool_decide_eq_false_2. Qed.

Lemma char_length_take_chars (n : nat) (s : string) :
  char_length (take_chars n s) = Nat.min n (char_length s).
Proof.
  revert n. induction s as [|c s IH]; intros n; simpl; [lia |].
  destruct (is_continuation c) eqn:E; simpl; rewrite ?E; [apply IH |].
  destruct n as [|n]; simpl; [done |]. by rewrite E, IH.
Qed.

Lemma take_chars_prefix (n : nat) (s : string) :
  ∃ dropped, s = take_chars n s +:+ dropped.
Proof.
  revert n. induction s as [|c s IH]; intros n; simpl; [by exists "" |].
  destruct (is_continuation c).
  - destruct (IH n) as [d Hd]. exists d. simpl. by rewrite <- Hd.
  - destruct n as [|n]; [by eexists |].
    destruct (IH n) as [d Hd]. exists d. simpl. by rewrite <- Hd.
Qed.

Lemma take_chars_all (n : nat) (s : string) :
  (char_length s ≤ n)%nat → take_chars n s = s.
Proof.
  revert n. induction s as [|c s IH]; intros n; simpl; [done |].
  destruct (is_continuation c); [intros H; by rewrite IH |].
  destruct n as [|n]; [lia |]. intros H. rewrite IH; [done | lia].
Qed.

Lemma char_length_replace_char (old new : ascii) (s : string) :
  is_continuation old = false → is_continuation new = false →
  char_length (replace_char old new s) = char_length s.
Proof.
  intros Hold Hnew. induction s as [|c s IH]; simpl; [done |].
  rewrite IH. case_bool_decide as Hc; [| done]. subst c. by rewrite Hold, Hnew.
Qed.

Lemma has_char_replace (old new : ascii) (s : string) :
  old ≠ new → has_char old (replace_char old new s) = false.
Proof.
  intros Hne. induction s as [|c s IH]; simpl; [done |].
  rewrite IH, orb_false_r. apply bool_decide_eq_false_2.
  destruct (decide (c = old)) as [->|Hc];
    [rewrite bool_decide_eq_true_2 by done | rewrite bool_decide_eq_false_2 by done];
    congruence.
Qed.

Lemma has_char_app (c : ascii) (a b : string) :
  has_char c (a +:+ b) = has_char c a || has_char c b.
Proof. induction a as [|x a IH]; simpl; [done | by rewrite IH, orb_assoc]. Qed.

Lemma split_on_no_sep (sep : ascii) (s : string) :
  has_char sep s = false → split_on sep s = [s].
Proof.
  induction s as [|c s IH]; simpl; [done |].
  rewrite orb_false_iff, bool_decide_eq_false. intros [Hc Hs].
  rewrite bool_decide_eq_false_2 by done. by rewrite IH.
Qed.

Lemma split_on_app_sep (sep : ascii) (a b : string) :
  has_char sep a = false →
  split_on sep (a +:+ String sep b) = a :: split_on sep b.
Proof.
  induction a as [|c a IH]; simpl.
  - intros _. by rewrite bool_decide_eq_true_2.
  - rewrite orb_false_iff, bool_decide_eq_false. intros [Hc Ha].
    rewrite bool_decide_eq_false_2 by done. by rewrite IH.
Qed.

(** Splitting a joined list of lines gives the lines back, when there is
    at least one and none holds a newline. *)
Lemma split_on_join (xs : list string) :
  xs ≠ [] →
  Forall (λ x, has_char "010"%char x = false) xs →
  split_on "010"%char (join NL xs) = xs.
Proof.
  induction xs as [|x [|y rest] IH]; intros Hne Hall; [done | |].
  - simpl. apply split_on_no_sep. by inversion Hall.
  - inversion Hall as [|? ? Hx Hrest]; subst.
    change (join NL (x :: y :: rest)) with (x +:+ String "010"%char (join NL (y :: rest))).
    rewrite split_on_app_sep by done. f_equal. by apply IH.
Qed.

Lemma join_menu_empty (cs : list candidate) :
  join NL (menu_line <$> cs) = "" ↔ cs = [].
Proof.
  split; [| by intros ->].
  destruct cs as [|c [|c' rest]]; [done | |]; simpl; unfold menu_line; simpl; discriminate.
Qed.

(** ** The monad and the network *)

Ltac unfold_M :=
  unfold mbind, mret, M_mbind, M_mret, M_bind, M_ret,
         result_mbind, result_ret, result_bind, lift, raise in *.

Lemma same_disk_refl (w : world) : same_disk w w.
Proof. by split. Qed.

Lemma same_disk_trans (w1 w2 w3 : world) :
  same_disk w1 w2 → same_disk w2 w3 → same_disk w1 w3.
Proof. intros [? ?] [? ?]. split; congruence. Qed.

Lemma get_eq (net : remote) (url : string) (w : world) :
  get net url w =
    (match http_get net url with Got r => Ok r | Failed => Raise TransportError end,
     World (dirs w) (git_log w) (http_log w ++ [url])).
Proof. unfold get. by destruct (http_get net url). Qed.

(** What the catalog request decodes to, apart from the trace it leaves. *)
Lemma task_repos_eq (net : remote) (w : world) :
  task_repos net w =
    (match http_get net repos_url with
     | Failed => Raise TransportError
     | Got r =>
         _ ← raise_for_status r; body ← json_of r; xs ← py_iter body; task_names xs
     end,
     World (dirs w) (git_log w) (http_log w ++ [repos_url])).
Proof.
  unfold task_repos, _github_repos. unfold_M. rewrite get_eq.
  destruct (http_get net repos_url) as [r|]; [| done].
  destruct (raise_for_status r) as [[]|]; [| done].
  by destruct (json_of r).
Qed.

Lemma task_repos_frame (net : remote) (w : world) :
  same_disk w (task_repos net w).2.
Proof. rewrite task_repos_eq. by split. Qed.

Lemma task_names_not_value_error (xs : list json) (msg : string) :
  task_names xs ≠ Raise (ValueError msg).
Proof.
  induction xs as [|x xs IH]; simpl; [done |]. unfold_M.
  destruct (py_getitem x "name") as [n|e] eqn:E.
  - destruct (py_hashable n) as [h|e'] eqn:E'.
    + destruct (in_str_set h NON_TASK_REPOS); [done |].
      by destruct (task_names xs) as [ns|[]].
    + destruct n; simpl in E'; congruence.
  - unfold py_getitem in E. destruct x; try congruence.
    destruct (assoc "name" kvs); congruence.
Qed.

Lemma task_repos_not_value_error (net : remote) (w : world) (msg : string) :
  (task_repos net w).1 ≠ Raise (ValueError msg).
Proof.
  rewrite task_repos_eq. simpl. destruct (http_get net repos_url) as [r|]; [| done].
  unfold_M. unfold raise_for_status, json_of.
  case_bool_decide; [| done].
  destruct (json_body r) as [body|]; [| done].
  destruct body as [[]| |]; simpl; try done; apply task_names_not_value_error.
Qed.

(** ** The candidate loop *)

Lemma gather_snippets_frame (net : remote) (repos : list scalar) (w : world) :
  same_disk w (gather_snippets net repos w).2.
Proof.
  revert w. induction repos as [|r repos IH]; intros w; simpl; [by split |].
  unfold_M. rewrite get_eq.
  destruct (http_get net _) as [rd|]; [| by split].
  set (w' := World _ _ _). specialize (IH w').
  destruct (gather_snippets net repos w') as [[cs|e] w'']; apply IH.
Qed.

Lemma gather_snippets_raises (net : remote) (repos : list scalar) (w : world) (e : exn) :
  (gather_snippets net repos w).1 = Raise e → e = TransportError.
Proof.
  revert w. induction repos as [|r repos IH]; intros w; simpl; [done |].
  unfold_M. rewrite get_eq.
  destruct (http_get net _) as [rd|]; [| by intros [= <-]].
  set (w' := World _ _ _). specialize (IH w').
  destruct (gather_snippets net repos w') as [[cs|e'] w'']; simpl in *; [done |].
  intros [= <-]. by apply IH.
Qed.

(** One candidate per repository, in catalog order, when every README
    request completes; the snippet is computed from the response alone. *)
Lemma gather_snippets_ok (net : remote) (repos : list scalar) (w : world) :
  Forall (λ r, ∃ rd, http_get net (readme_url (py_str r)) = Got rd) repos →
  ∃ cs, (gather_snippets net repos w).1 = Ok cs
        ∧ Forall2 (λ r c, repo c = r
                          ∧ ∃ rd, http_get net (readme_url (py_str r)) = Got rd
                                  ∧ readme_snippet c = snippet_of rd) repos cs.
Proof.
  revert w. induction repos as [|r repos IH]; intros w Hall; simpl.
  - exists []. by split.
  - inversion Hall as [|? ? [rd Hrd] Hrest]; subst.
    unfold_M. rewrite get_eq, Hrd.
    set (w' := World _ _ _). destruct (IH w' Hrest) as [cs [Hcs Hrel]].
    destruct (gather_snippets net repos w') as [[cs'|e] w'']; simpl in Hcs; [| done].
    injection Hcs as ->. eexists. split; [done |].
    constructor; [| done]. split; [done |]. by exists rd.
Qed.

Lemma gather_snippets_fails (net : remote) (repos : list scalar) (w : world) :
  Exists (λ r, http_get net (readme_url (py_str r)) = Failed) repos →
  (gather_snippets net repos w).1 = Raise TransportError.
Proof.
  revert w. induction repos as [|r repos IH]; intros w Hex; simpl.
  - inversion Hex.
  - unfold_M. rewrite get_eq.
    destruct (http_get net (readme_url (py_str r))) as [rd|] eqn:E; [| done].
    inversion Hex as [? ? Hr|? ? Hrest]; subst; [congruence |].
    set (w' := World _ _ _). specialize (IH w' Hrest).
    destruct (gather_snippets net repos w') as [[cs'|e] w'']; simpl in *; congruence.
Qed.

Lemma snippet_of_no_newline (rd : response) :
  has_char "010"%char (snippet_of rd) = false.
Proof.
  unfold snippet_of. case_bool_decide; [| done].
  by apply has_char_replace.
Qed.

Lemma snippet_of_length (rd : response) :
  (char_length (snippet_of rd) ≤ 2000)%nat.
Proof.
  unfold snippet_of. case_bool_decide; [| simpl; lia].
  rewrite char_length_replace_char, char_length_take_chars by done. lia.
Qed.

(** ** Resolution of an explicit source *)

Lemma first_match_found (source : string) (before after : list string) (r : string) :
  Forall (λ x, ¬ ci_contains source x) before →
  ci_contains source r →
  first_match source (SStr <$> (before ++ r :: after)) = Ok (Some r).
Proof.
  intros Hbefore Hr. induction Hbefore as [|x before Hx _ IH]; simpl; unfold_M.
  - apply str_in_ci_contains in Hr. by rewrite Hr.
  - rewrite <- str_in_ci_contains in Hx. apply not_true_is_false in Hx.
    by rewrite Hx.
Qed.

Lemma str_in_ci_contains_by (low : string → string) (source name : string) :
  str_in (low source) (low name) = true ↔ ci_contains_by low source name.
Proof. apply str_in_spec. Qed.

Lemma first_match_by_none (low : string → string) (source : string)
    (names : list string) :
  Forall (λ x, ¬ ci_contains_by low source x) names →
  first_match_by low source (SStr <$> names) = Ok None.
Proof.
  intros Hall. induction Hall as [|x names Hx _ IH]; simpl; unfold_M; [done |].
  rewrite <- str_in_ci_contains_by in Hx. apply not_true_is_false in Hx.
  by rewrite Hx.
Qed.

Lemma first_match_by_member (low : string → string) (source : string)
    (repos : list scalar) (r : string) :
  first_match_by low source repos = Ok (Some r) →
  SStr r ∈ repos ∧ ci_contains_by low source r.
Proof.
  induction repos as [|v repos IH]; simpl; [done |]. unfold_M.
  destruct v as [| | | |s]; simpl; try done.
  destruct (str_in (low source) (low s)) eqn:E.
  - intros [= <-]. split; [apply list_elem_of_here | by apply str_in_ci_contains_by].
  - intros H. destruct (IH H) as [? ?]. split; [by apply list_elem_of_further | done].
Qed.

(** At the ASCII lowering the parametrised definitions are the ones above. *)
Lemma first_match_by_lower (source : string) (repos : list scalar) :
  first_match_by lower source repos = first_match source repos.
Proof. induction repos as [|v repos IH]; simpl; [done |]. by rewrite IH. Qed.

Lemma build_task_by_lower (net : remote) (target : string)
    (source : option string) (w : world) :
  build_task_by lower net target source w = build_task net target source w.
Proof.
  unfold build_task_by, build_task. unfold_M.
  destruct (task_repos net w) as [[repos|e] w1]; [| done].
  by rewrite first_match_by_lower.
Qed.

Lemma transform_prompt_rendered (source target : string) :
  transform_prompt source target = Ok (UserMessage (rendered_prompt source target)).
Proof. reflexivity. Qed.

(** ** The catalog *)

Lemma task_names_excludes (xs : list json) (names : list scalar) (n : string) :
  task_names xs = Ok names → n ∈ NON_TASK_REPOS → SStr n ∉ names.
Proof.
  revert names. induction xs as [|x xs IH]; intros names; simpl.
  - intros [= <-] _. apply not_elem_of_nil.
  - unfold_M. destruct (py_getitem x "name") as [v|]; [| done].
    destruct (py_hashable v) as [h|]; [| done].
    destruct (in_str_set h NON_TASK_REPOS) eqn:Hin; [by apply IH |].
    destruct (task_names xs) as [ns|]; [| done].
    intros [= <-] Hn. rewrite not_elem_of_cons. split; [| by apply IH].
    intros <-. simpl in Hin. by rewrite bool_decide_eq_true_2 in Hin.
Qed.

Lemma task_names_named (xs : list json) (ns : list string) :
  Forall2 named xs ns →
  task_names xs = Ok (SStr <$> filter (λ n, n ∉ NON_TASK_REPOS) ns).
Proof.
  induction 1 as [|x n xs ns Hx _ IH]; simpl; [done |].
  unfold named in Hx. unfold_M. rewrite Hx. simpl.
  rewrite filter_cons. destruct (decide (n ∉ NON_TASK_REPOS)) as [Hn|Hn].
  - rewrite bool_decide_eq_false_2 by done. by rewrite IH.
  - rewrite bool_decide_eq_true_2 by (by apply dec_stable). done.
Qed.

Lemma non_task_repos_exact (n : string) :
  n ∈ NON_TASK_REPOS ↔
    n = "task-registry" ∨ n = ".github" ∨ n = "psyflow" ∨ n = "psyflow-mcp"
    ∨ n = "community" ∨ n = "taskbeacon.github.io".
Proof.
  unfold NON_TASK_REPOS. rewrite elem_of_list_to_set.
  repeat rewrite elem_of_cons. rewrite elem_of_nil. tauto.
Qed.

(** C4.  Whatever the hosting API answers, a listing that
    [task_repos] returns holds no name of the exclusion set.  The test is
    exact equality of strings on the name as the API gives it: on a
    successful answer listing repositories named [ns], the result is [ns]
    without the members of [NON_TASK_REPOS], in the same order. *)
Theorem task_repos_excludes_non_task (net : remote) (w : world) :
  (∀ names w', task_repos net w = (Ok names, w') →
     ∀ n, n ∈ NON_TASK_REPOS → SStr n ∉ names)
  ∧ (∀ rd xs ns,
       http_get net repos_url = Got rd →
       200 ≤ status_code rd < 300 →
       json_body rd = Some (JArr xs) →
       Forall2 named xs ns →
       (task_repos net w).1 = Ok (SStr <$> filter (λ n, n ∉ NON_TASK_REPOS) ns)).
Proof.
  split.
  - intros names w'. rewrite task_repos_eq. intros [= H _] n Hn.
    destruct (http_get net repos_url) as [rd|]; [| done]. unfold_M.
    destruct (raise_for_status rd) as [[]|]; [| done].
    destruct (json_of rd) as [body|]; [| done].
    destruct (py_iter body) as [xs|]; [| done].
    by eapply task_names_excludes.
  - intros rd xs ns Hget Hstatus Hbody Hnamed.
    rewrite task_repos_eq, Hget. simpl. unfold_M.
    unfold raise_for_status, json_of.
    rewrite bool_decide_eq_true_2 by done. rewrite Hbody. simpl.
    by apply task_names_named.
Qed.

Lemma task_repos_excludes_non_task_witness :
  (task_repos example_net fresh).1 = Ok [SStr "stroop-task"; SStr "gonogo-task"].
Proof.
  refine (proj2 (task_repos_excludes_non_task example_net fresh)
            (Response 200 "" (Some example_catalog))
            [repo_obj 1 "stroop-task"; repo_obj 2 "gonogo-task"; repo_obj 3 "task-registry"]
            ["stroop-task"; "gonogo-task"; "task-registry"] _ _ _ _).
  - reflexivity.
  - simpl. lia.
  - reflexivity.
  - repeat constructor.
Defined.

(** The test is case-sensitive: a name that differs from an excluded one
    only by case is listed. *)
Example task_names_case_sensitive :
  task_names [repo_obj 1 "PsyFlow"; repo_obj 2 "psyflow"; repo_obj 3 "Community"]
  = Ok [SStr "PsyFlow"; SStr "Community"].
Proof. vm_compute. reflexivity. Qed.

(** ** The config translation prompt *)

(** C9.  [translate_config_prompt] returns exactly two messages, and the
    content of the second is the document text as given. *)
Theorem translate_config_prompt_second_verbatim (yaml_text target_language : string) :
  length (translate_config_prompt yaml_text target_language) = 2%nat
  ∧ content <$> translate_config_prompt yaml_text target_language !! 1%nat
    = Some yaml_text.
Proof. by split. Qed.

Example translate_config_prompt_spanish :
  content <$> translate_config_prompt "stimuli: [{type: text, text: Hello}]" "Spanish"
  = [ "Translate selected fields of this PsyFlow config into Spanish. Translate ONLY:"
      +:+ NL +:+ "  • subinfo_mapping values"
      +:+ NL +:+ "  • stimuli entries of type 'text' or 'textbox' (the `text` field)"
      +:+ NL +:+ NL +:+ "Return the COMPLETE YAML with translated values — no commentary.";
      "stimuli: [{type: text, text: Hello}]" ].
Proof. vm_compute. reflexivity. Qed.

(** ** The repository cache *)

Lemma clone_hit (net : remote) (r : string) (w : world) :
  cache_dest r ∈ dirs w → clone net r w = (Ok (cache_dest r), w).
Proof. intros H. unfold clone. by rewrite bool_decide_eq_true_2. Qed.

(** A call returns whenever the directory is there or the remote clone
    succeeds, and the directory is there afterwards. *)
Lemma clone_returns (net : remote) (r : string) (w : world) :
  cache_dest r ∈ dirs w ∨ git_clone_ok net (clone_url r) = true →
  ∃ w', clone net r w = (Ok (cache_dest r), w') ∧ cache_dest r ∈ dirs w'.
Proof.
  intros H. unfold clone. case_bool_decide as Hin; [by exists w |].
  destruct H as [? | ->]; [done |].
  eexists. split; [done |]. simpl. set_solver.
Qed.

Lemma clone_ok_inv (net : remote) (r : string) (w w1 : world) (p : string) :
  clone net r w = (Ok p, w1) →
  p = cache_dest r ∧ cache_dest r ∈ dirs w1
  ∧ (length (git_log w1) ≤ S (length (git_log w)))%nat.
Proof.
  unfold clone. case_bool_decide as Hin.
  - intros [= <- <-]. repeat split; [done | lia].
  - destruct (git_clone_ok net (clone_url r)); [| done].
    intros [= <- <-]. simpl. repeat split; [set_solver |].
    rewrite length_app. simpl. lia.
Qed.

(** C3.  [clone] is idempotent.  A call that finds the destination
    directory starts no clone and changes nothing; and after a call that
    returned, a second call for the same name returns the same path and
    starts no clone, so that the two calls together start at most one. *)
Theorem clone_idempotent (net : remote) (r : string) :
  (∀ w, cache_dest r ∈ dirs w → clone net r w = (Ok (cache_dest r), w))
  ∧ (∀ w w1 p1, clone net r w = (Ok p1, w1) →
       ∃ w2 p2, clone net r w1 = (Ok p2, w2)
                ∧ p2 = p1
                ∧ git_log w2 = git_log w1
                ∧ (length (git_log w2) ≤ S (length (git_log w)))%nat).
Proof.
  split; [apply clone_hit |].
  intros w w1 p1 H. apply clone_ok_inv in H as (-> & Hin & Hlen).
  exists w1, (cache_dest r). by rewrite clone_hit.
Qed.

Lemma clone_idempotent_witness :
  ∃ w2 p2, clone example_net "stroop-task"
             (World {["task_cache/stroop-task"]}
                [("https://github.com/TaskBeacon/stroop-task.git", "task_cache/stroop-task")]
                []) = (Ok p2, w2)
           ∧ p2 = "task_cache/stroop-task"
           ∧ git_log w2
             = [("https://github.com/TaskBeacon/stroop-task.git", "task_cache/stroop-task")]
           ∧ (length (git_log w2) ≤ 1)%nat.
Proof.
  refine (proj2 (clone_idempotent example_net "stroop-task") fresh _ _ _).
  vm_compute. reflexivity.
Defined.

(** ** [build_task] with an explicit source *)



(** C2.  With a non-empty [source] that no catalog name contains, case
    ignored, [build_task] raises the not-found error; nothing is cloned and
    no directory appears.  This holds whatever [str.lower] does to the
    source and to the names: [low] is any lowering function. *)
Theorem build_task_source_not_found
    (low : string → string) (net : remote) (target source : string)
    (w w1 : world) (names : list string) :
  source ≠ "" →
  task_repos net w = (Ok (SStr <$> names), w1) →
  Forall (λ x, ¬ ci_contains_by low source x) names →
  build_task_by low net target (Some source) w
  = (Raise (ValueError "Template repo not found."), w1)
  ∧ same_disk w w1.
Proof.
  intros Hsrc Hrepos Hnone. split.
  - unfold build_task_by. simpl. rewrite truthy_true by done.
    unfold_M. rewrite Hrepos. by rewrite first_match_by_none.
  - pose proof (task_repos_frame net w) as H. by rewrite Hrepos in H.
Qed.

Lemma build_task_source_not_found_witness :
  build_task_by lower example_net "flanker" (Some "n-back") fresh
  = (Raise (ValueError "Template repo not found."), World ∅ [] [repos_url])
  ∧ same_disk fresh (World ∅ [] [repos_url]).
Proof.
  refine (build_task_source_not_found lower example_net "flanker" "n-back" fresh _
            ["stroop-task"; "gonogo-task"] _ _ _).
  - discriminate.
  - vm_compute. reflexivity.
  - repeat constructor; rewrite <- str_in_ci_contains_by; vm_compute; discriminate.
Defined.

(** A source spelled with the Kelvin sign in place of the last letter of
    [stroop-task]: under a lowering that maps the sign to [k], as
    [str.lower] does, the repository is found and cloned; under the ASCII
    lowering it is not found. *)
Example build_task_by_kelvin :
  (build_task_by kelvin_lower example_net "flanker" (Some "stroop-tasK") fresh).1
  = Ok (Built (rendered_prompt "stroop-tasK" "flanker") "task_cache/stroop-task")
  ∧ (build_task_by lower example_net "flanker" (Some "stroop-tasK") fresh).1
    = Raise (ValueError "Template repo not found.").
Proof. split; vm_compute; reflexivity. Qed.

(** ** [build_task] without a source *)

Lemma build_task_no_source_eq (net : remote) (target : string)
    (source : option string) (w : world) :
  truthy_opt source = false →
  build_task net target source w =
    match task_repos net w with
    | (Ok repos, w1) =>
        match gather_snippets net repos w1 with
        | (Ok cs, w2) =>
            (Ok (Selection (choose_template_prompt (desired target) cs) build_note), w2)
        | (Raise e, w2) => (Raise e, w2)
        end
    | (Raise e, w1) => (Raise e, w1)
    end.
Proof.
  intros Hsrc. unfold build_task. rewrite Hsrc. unfold_M.
  destruct (task_repos net w) as [[repos|e] w1]; [| done].
  by destruct (gather_snippets net repos w1) as [[cs|e] w2].
Qed.

Lemma build_task_no_source_frame (net : remote) (target : string)
    (source : option string) (w : world) :
  truthy_opt source = false →
  same_disk w (build_task net target source w).2.
Proof.
  intros Hsrc. rewrite build_task_no_source_eq by done.
  pose proof (task_repos_frame net w) as H1.
  destruct (task_repos net w) as [[repos|e] w1]; [| done].
  pose proof (gather_snippets_frame net repos w1) as H2.
  destruct (gather_snippets net repos w1) as [[cs|e] w2];
    by eapply same_disk_trans.
Qed.

Lemma build_task_no_source_ok (net : remote) (target : string)
    (source : option string) (w w1 : world) (repos : list scalar) :
  truthy_opt source = false →
  task_repos net w = (Ok repos, w1) →
  Forall (λ r, ∃ rd, http_get net (readme_url (py_str r)) = Got rd) repos →
  ∃ cs,
    (build_task net target source w).1
    = Ok (Selection (choose_template_prompt (desired target) cs) build_note)
    ∧ Forall2 (λ r c, repo c = r
                      ∧ ∃ rd, http_get net (readme_url (py_str r)) = Got rd
                              ∧ readme_snippet c = snippet_of rd) repos cs.
Proof.
  intros Hsrc Hrepos Hall. rewrite build_task_no_source_eq, Hrepos by done.
  destruct (gather_snippets_ok net repos w1 Hall) as [cs [Hcs Hrel]].
  exists cs. split; [| done].
  destruct (gather_snippets net repos w1) as [[cs'|e] w2]; simpl in Hcs; [| done].
  by injection Hcs as ->.
Qed.

(** C5, as the code has it.  In [build_task] without a source, when every
    README request completes with a response, there is one candidate per
    catalog repository, in catalog order, and its snippet is the first 2000
    characters of the README text with newlines replaced by spaces when the
    status is exactly 200, and the empty string for any other status.  A
    README request that does not complete is not caught: [build_task]
    raises. *)
Theorem build_task_readme_snippets
    (net : remote) (target : string) (w w1 : world) (repos : list scalar) :
  task_repos net w = (Ok repos, w1) →
  (Forall (λ r, ∃ rd, http_get net (readme_url (py_str r)) = Got rd) repos →
   ∃ cs,
     (build_task net target None w).1
     = Ok (Selection (choose_template_prompt (desired target) cs) build_note)
     ∧ Forall2
         (λ r c,
            repo c = r
            ∧ ∃ rd,
                http_get net (readme_url (py_str r)) = Got rd
                ∧ readme_snippet c
                  = (if bool_decide (status_code rd = 200)
                     then replace_char "010"%char " "%char (take_chars 2000 (text rd))
                     else "")
                ∧ (char_length (readme_snippet c) ≤ 2000)%nat
                ∧ has_char "010"%char (readme_snippet c) = false)
         repos cs)
  ∧ (Exists (λ r, http_get net (readme_url (py_str r)) = Failed) repos →
     (build_task net target None w).1 = Raise TransportError).
Proof.
  intros Hrepos. split.
  - intros Hall.
    destruct (build_task_no_source_ok net target None w w1 repos) as [cs [Hres Hrel]];
      [done .. |].
    exists cs. split; [done |].
    eapply Forall2_impl; [exact Hrel |].
    intros r c [Hc [rd [Hrd Hsn]]]. split; [done |]. exists rd.
    rewrite Hsn. repeat split; [done | | ].
    + apply snippet_of_length.
    + apply snippet_of_no_newline.
  - intros Hex. rewrite build_task_no_source_eq, Hrepos by done.
    pose proof (gather_snippets_fails net repos w1 Hex) as H.
    destruct (gather_snippets net repos w1) as [[cs|e] w2]; simpl in *; congruence.
Qed.

Lemma build_task_readme_snippets_witness :
  ∃ cs,
    (build_task example_net "flanker" None fresh).1
    = Ok (Selection (choose_template_prompt (desired "flanker") cs) build_note)
    ∧ Forall2
        (λ r c,
           repo c = r
           ∧ ∃ rd,
               http_get example_net (readme_url (py_str r)) = Got rd
               ∧ readme_snippet c
                 = (if bool_decide (status_code rd = 200)
                    then replace_char "010"%char " "%char (take_chars 2000 (text rd))
                    else "")
               ∧ (char_length (readme_snippet c) ≤ 2000)%nat
               ∧ has_char "010"%char (readme_snippet c) = false)
        [SStr "stroop-task"; SStr "gonogo-task"] cs.
Proof.
  refine (proj1 (build_task_readme_snippets example_net "flanker" fresh
                   (World ∅ [] [repos_url]) [SStr "stroop-task"; SStr "gonogo-task"] _) _).
  - vm_compute. reflexivity.
  - repeat constructor; eexists; vm_compute; reflexivity.
Defined.

(** C5 as stated fails twice over.  A README request that times out makes
    [build_task] raise instead of yielding an empty snippet; and a response
    with a success status other than 200 yields the empty snippet, not the
    README text. *)
Lemma build_task_readme_timeout_raises :
  (build_task timeout_net "flanker" None fresh).1 = Raise TransportError
  ∧ snippet_of (Response 203 "# Stroop" None) = "".
Proof. split; vm_compute; reflexivity. Qed.

(** C6 as stated fails where a README request does not complete: the
    catalog is listed, and [build_task] raises instead of returning the
    selection messages. *)
Lemma build_task_without_source_timeout :
  (task_repos timeout_net fresh).1 = Ok [SStr "stroop-task"; SStr "gonogo-task"]
  ∧ ∀ msgs note,
      (build_task timeout_net "flanker" None fresh).1 ≠ Ok (Selection msgs note).
Proof.
  split; [vm_compute; reflexivity |].
  intros msgs note.
  assert (H : (build_task timeout_net "flanker" None fresh).1 = Raise TransportError)
    by (vm_compute; reflexivity).
  rewrite H. discriminate.
Qed.

(** C6, as the code has it.  [build_task] without a source leaves the disk
    as it was, whatever the remote side answers: no directory appears and
    no clone is started.  When the catalog is listed and every README
    request completes, it returns the three selection messages and the
    note asking for a second call with the chosen repository as
    [source_task]; the listing message is the header followed by one entry
    per catalog repository, in catalog order, joined by newlines (or the
    placeholder when there is none), and these entries are exactly its
    lines when no repository name holds a newline.  When a README request
    does not complete, it raises. *)
Theorem build_task_without_source (net : remote) (target : string) (w : world) :
  same_disk w (build_task net target None w).2
  ∧ (∀ repos w1,
      task_repos net w = (Ok repos, w1) →
      Forall (λ r, ∃ rd, http_get net (readme_url (py_str r)) = Got rd) repos →
      ∃ cs intro menu,
        (build_task net target None w).1
        = Ok (Selection
                [UserMessage intro;
                 UserMessage ("Desired task:" +:+ NL +:+ desired target);
                 UserMessage ("Candidate templates:" +:+ NL +:+ menu)]
                build_note)
        ∧ build_note
          = "Reply with chosen repo, then call build_task again with source_task=<repo>."
        ∧ repo <$> cs = repos
        ∧ menu = match cs with
                 | [] => "(no templates found)"
                 | _ => join NL (menu_line <$> cs)
                 end
        ∧ (repos ≠ [] →
           Forall (λ r, has_char "010"%char (py_str r) = false) repos →
           split_on "010"%char menu = menu_line <$> cs
           ∧ length (split_on "010"%char menu) = length repos))
  ∧ (∀ repos w1,
       task_repos net w = (Ok repos, w1) →
       Exists (λ r, http_get net (readme_url (py_str r)) = Failed) repos →
       (build_task net target None w).1 = Raise TransportError).
Proof.
  split; [by apply build_task_no_source_frame |].
  split; cycle 1.
  { intros repos w1 Hrepos Hex. rewrite build_task_no_source_eq, Hrepos by done.
    pose proof (gather_snippets_fails net repos w1 Hex) as H.
    destruct (gather_snippets net repos w1) as [[cs|e] w2]; simpl in *; congruence. }
  intros repos w1 Hrepos Hall.
  destruct (build_task_no_source_ok net target None w w1 repos) as [cs [Hres Hrel]];
    [done .. |].
  assert (Hcs : repo <$> cs = repos).
  { clear -Hrel. induction Hrel as [|r c repos' cs' [Hc _] _ IH]; [done |].
    rewrite fmap_cons. by f_equal. }
  assert (Hmenu : (if truthy (join NL (menu_line <$> cs))
                   then join NL (menu_line <$> cs) else "(no templates found)")
                  = match cs with
                    | [] => "(no templates found)"
                    | _ => join NL (menu_line <$> cs)
                    end).
  { destruct cs as [|c cs']; [done |]. rewrite truthy_true; [done |].
    by rewrite join_menu_empty. }
  eexists cs, _, (match cs with
                  | [] => "(no templates found)"
                  | _ => join NL (menu_line <$> cs)
                  end).
  split; [| split; [done | split; [done | split; [done |]]]].
  - rewrite Hres. unfold choose_template_prompt. by rewrite Hmenu.
  - intros Hne Hnames.
    assert (Hlines : split_on "010"%char (join NL (menu_line <$> cs)) = menu_line <$> cs).
    { apply split_on_join.
      - destruct cs; [by subst repos | done].
      - rewrite Forall_fmap. clear -Hrel Hnames.
        induction Hrel as [|r c repos' cs' [Hc [rd [_ Hsn]]] _ IH]; [done |].
        inversion Hnames as [|? ? Hr Hrest]; subst. constructor; [| by apply IH].
        simpl. unfold menu_line. rewrite !has_char_app, Hr, Hsn. simpl.
        apply snippet_of_no_newline. }
    destruct cs as [|c cs']; [by subst repos |].
    cbv beta iota. rewrite Hlines. split; [done |]. by rewrite <- Hcs, !length_fmap.
Qed.

Lemma build_task_without_source_witness :
  ∃ cs intro menu,
    (build_task example_net "flanker" None fresh).1
    = Ok (Selection
            [UserMessage intro;
             UserMessage ("Desired task:" +:+ NL +:+ desired "flanker");
             UserMessage ("Candidate templates:" +:+ NL +:+ menu)]
            build_note)
    ∧ build_note
      = "Reply with chosen repo, then call build_task again with source_task=<repo>."
    ∧ repo <$> cs = [SStr "stroop-task"; SStr "gonogo-task"]
    ∧ menu = match cs with
             | [] => "(no templates found)"
             | _ => join NL (menu_line <$> cs)
             end
    ∧ ([SStr "stroop-task"; SStr "gonogo-task"] ≠ [] →
       Forall (λ r, has_char "010"%char (py_str r) = false)
         [SStr "stroop-task"; SStr "gonogo-task"] →
       split_on "010"%char menu = menu_line <$> cs
       ∧ length (split_on "010"%char menu) = 2%nat).
Proof.
  refine (proj1 (proj2 (build_task_without_source example_net "flanker" fresh))
            [SStr "stroop-task"; SStr "gonogo-task"] (World ∅ [] [repos_url]) _ _).
  - vm_compute. reflexivity.
  - repeat constructor; eexists; vm_compute; reflexivity.
Defined.

Example build_task_without_source_listing :
  (build_task example_net "flanker" None fresh).1
  = Ok (Selection
          (choose_template_prompt "A flanker task."
             [mkCandidate (SStr "stroop-task") "# Stroop A colour-word task.";
              mkCandidate (SStr "gonogo-task") ""])
          build_note)
  ∧ content <$> choose_template_prompt "A flanker task."
                  [mkCandidate (SStr "stroop-task") "# Stroop A colour-word task.";
                   mkCandidate (SStr "gonogo-task") ""] !! 2%nat
    = Some ("Candidate templates:" +:+ NL
            +:+ "- **stroop-task**: # Stroop A colour-word task." +:+ NL
            +:+ "- **gonogo-task**: ").
Proof. split; vm_compute; reflexivity. Qed.

Lemma build_task_no_source_not_value_error (net : remote) (target : string)
    (source : option string) (w : world) (msg : string) :
  truthy_opt source = false →
  (build_task net target source w).1 ≠ Raise (ValueError msg).
Proof.
  intros Hsrc. rewrite build_task_no_source_eq by done.
  pose proof (task_repos_not_value_error net w msg) as H1.
  destruct (task_repos net w) as [[repos|e] w1]; simpl in *;
    [| intros [= ->]; by apply H1].
  pose proof (gather_snippets_raises net repos w1) as H2.
  destruct (gather_snippets net repos w1) as [[cs|e] w2]; simpl in *; [done |].
  intros [= ->]. by specialize (H2 _ eq_refl).
Qed.

(** C10.  [build_task] with the empty string as [source_task] is the call
    without a source, outcome and world alike.  It starts no clone and
    creates no directory, it never raises the not-found error of the
    resolution branch, a result it returns is the selection messages with
    the note, and it does return them when the catalog and the README
    requests complete. *)
Theorem build_task_empty_source (net : remote) (target : string) (w : world) :
  build_task net target (Some "") w = build_task net target None w
  ∧ same_disk w (build_task net target (Some "") w).2
  ∧ (∀ msg, (build_task net target (Some "") w).1 ≠ Raise (ValueError msg))
  ∧ (∀ res, (build_task net target (Some "") w).1 = Ok res →
       ∃ msgs, res = Selection msgs build_note)
  ∧ (∀ repos w1,
       task_repos net w = (Ok repos, w1) →
       Forall (λ r, ∃ rd, http_get net (readme_url (py_str r)) = Got rd) repos →
       ∃ msgs, (build_task net target (Some "") w).1 = Ok (Selection msgs build_note)).
Proof.
  split; [done |].
  split; [by apply build_task_no_source_frame |].
  split; [intros msg; by apply build_task_no_source_not_value_error |].
  split.
  - intros res. rewrite build_task_no_source_eq by done.
    destruct (task_repos net w) as [[repos|e] w1]; [| done].
    destruct (gather_snippets net repos w1) as [[cs|e] w2]; [| done].
    intros [= <-]. eauto.
  - intros repos w1 Hrepos Hall.
    destruct (build_task_no_source_ok net target (Some "") w w1 repos)
      as [cs [Hres _]]; [done .. |].
    eauto.
Qed.

Lemma build_task_empty_source_witness :
  ∃ msgs,
    (build_task example_net "flanker" (Some "") fresh).1
    = Ok (Selection msgs build_note).
Proof.
  refine (proj2 (proj2 (proj2 (proj2
            (build_task_empty_source example_net "flanker" fresh))))
            [SStr "stroop-task"; SStr "gonogo-task"] (World ∅ [] [repos_url]) _ _).
  - vm_compute. reflexivity.
  - repeat constructor; eexists; vm_compute; reflexivity.
Defined.

(** ** The branch inspector *)

Lemma repo_branches_eq (net : remote) (name : string) (w : world) :
  _repo_branches net name w =
    (match http_get net (branches_url name) with
     | Failed => Raise TransportError
     | Got r =>
         body ← json_of r; xs ← py_iter body; ns ← names_of xs; Ok (take 20 ns)
     end,
     World (dirs w) (git_log w) (http_log w ++ [branches_url name])).
Proof.
  unfold _repo_branches. unfold_M. rewrite get_eq.
  by destruct (http_get net (branches_url name)).
Qed.

Lemma names_of_named (xs : list json) (bs : list string) :
  Forall2 named xs bs → names_of xs = Ok ((λ b, JScalar (SStr b)) <$> bs).
Proof.
  induction 1 as [|x b xs bs Hx _ IH]; simpl; [done |].
  unfold named in Hx. unfold_M. by rewrite Hx, IH.
Qed.

(** On a listing of named branches the result is the first twenty names
    of the upstream list, whatever the status of the response. *)
Lemma repo_branches_first_twenty (net : remote) (name : string) (w : world)
    (rd : response) (xs : list json) (bs : list string) :
  http_get net (branches_url name) = Got rd →
  json_body rd = Some (JArr xs) →
  Forall2 named xs bs →
  (_repo_branches net name w).1 = Ok ((λ b, JScalar (SStr b)) <$> take 20 bs).
Proof.
  intros Hget Hbody Hnamed. rewrite repo_branches_eq, Hget. simpl.
  unfold_M. unfold json_of. rewrite Hbody. simpl.
  rewrite (names_of_named xs bs) by done. by rewrite fmap_take.
Qed.

(** The status code plays no part: two responses with the same body give
    the same outcome. *)
Lemma repo_branches_ignores_status (net net' : remote) (name : string)
    (w : world) (rd rd' : response) :
  http_get net (branches_url name) = Got rd →
  http_get net' (branches_url name) = Got rd' →
  json_body rd = json_body rd' →
  _repo_branches net name w = _repo_branches net' name w.
Proof.
  intros H H' Hbody. rewrite !repo_branches_eq, H, H'.
  unfold json_of. by rewrite Hbody.
Qed.

(** C7, at a repository with eleven branches: the inspector returns all
    eleven names, one more than the bound of ten (the slice keeps twenty). *)
Theorem repo_branches_returns_eleven :
  (_repo_branches branches_net "stroop-task" fresh).1
  = Ok ((λ b, JScalar (SStr b)) <$> eleven_branches)
  ∧ length eleven_branches = 11%nat.
Proof. split; vm_compute; reflexivity. Qed.

(** C8, at a repository whose branch listing is answered with a 404 and
    the error object of the hosting API: the inspector raises, it does not
    return the empty sequence. *)
Theorem repo_branches_not_found_raises :
  (_repo_branches branches_net "gone-task" fresh).1 = Raise TypeError.
Proof. vm_compute. reflexivity. Qed.

(** ** Further properties of the catalog and of the cache *)

Lemma task_repos_excluded_absent (net : remote) (w w' : world)
    (names : list scalar) (n : string) :
  task_repos net w = (Ok names, w') → n ∈ NON_TASK_REPOS → SStr n ∉ names.
Proof.
  rewrite task_repos_eq. intros [= H _] Hn.
  destruct (http_get net repos_url) as [rd|]; [| done]. unfold_M.
  destruct (raise_for_status rd) as [[]|]; [| done].
  destruct (json_of rd) as [body|]; [| done].
  destruct (py_iter body) as [xs|]; [| done].
  by eapply task_names_excludes.
Qed.

(** The outcome of the catalog request does not depend on the world. *)
Lemma task_repos_outcome (net : remote) (w w' : world) :
  (task_repos net w).1 = (task_repos net w').1.
Proof. by rewrite !task_repos_eq. Qed.

Lemma task_repos_world (net : remote) (w : world) :
  (task_repos net w).2 = World (dirs w) (git_log w) (http_log w ++ [repos_url]).
Proof. by rewrite task_repos_eq. Qed.

Lemma task_names_raises (xs : list json) :
  Exists (λ x, ∀ v, py_getitem x "name" ≠ Ok v) xs →
  ∃ e, task_names xs = Raise e.
Proof.
  induction 1 as [x xs Hx | x xs _ [e IH]]; simpl; unfold_M.
  - destruct (py_getitem x "name") as [v|e]; [by destruct (Hx v) | eauto].
  - destruct (py_getitem x "name") as [v|e']; [| eauto].
    destruct (py_hashable v) as [h|e']; [| eauto].
    rewrite IH. destruct (in_str_set h NON_TASK_REPOS); eauto.
Qed.

(** X1.  No partial catalog: when one entry of the answer lacks a usable
    [name] (it is not an object, or has no such key), [task_repos] raises
    and lists nothing, wherever the entry stands. *)
Theorem task_repos_no_partial_catalog
    (net : remote) (w : world) (rd : response) (xs : list json) :
  http_get net repos_url = Got rd →
  json_body rd = Some (JArr xs) →
  Exists (λ x, ∀ v, py_getitem x "name" ≠ Ok v) xs →
  ∃ e, (task_repos net w).1 = Raise e.
Proof.
  intros Hget Hbody Hbad. rewrite task_repos_eq, Hget. simpl. unfold_M.
  destruct (raise_for_status rd) as [[]|]; [| eauto].
  unfold json_of. rewrite Hbody. simpl. by apply task_names_raises.
Qed.

Lemma task_repos_no_partial_catalog_witness :
  ∃ e, (task_repos
          (Remote (λ _, Got (Response 200 ""
                               (Some (JArr [repo_obj 1 "stroop-task";
                                            JObj [("id", JScalar (SInt 2))]]))))
                  (λ _, true))
          fresh).1 = Raise e.
Proof.
  refine (task_repos_no_partial_catalog _ fresh _ _ _ _ _).
  - reflexivity.
  - reflexivity.
  - apply Exists_cons_tl, Exists_cons_hd. intros v. vm_compute. discriminate.
Defined.

Lemma clone_http_log (net : remote) (r : string) (w : world) :
  http_log (clone net r w).2 = http_log w.
Proof.
  unfold clone. case_bool_decide; [done |].
  by destruct (git_clone_ok net (clone_url r)).
Qed.

Lemma cache_dest_inj (r r' : string) : cache_dest r = cache_dest r' → r = r'.
Proof. unfold cache_dest, CACHE. simpl. by intros [= ->]. Qed.

(** X2.  What one call of [clone] does to the disk: it returns exactly when
    the directory is there or the remote clone succeeds; it never removes a
    directory, and the only one it can add is the destination of the
    repository, so that the cache entries of other names are untouched. *)
Theorem clone_effect (net : remote) (r : string) (w : world) :
  ((∃ p, (clone net r w).1 = Ok p)
   ↔ cache_dest r ∈ dirs w ∨ git_clone_ok net (clone_url r) = true)
  ∧ dirs w ⊆ dirs (clone net r w).2
  ∧ (∀ r', r' ≠ r →
       (cache_dest r' ∈ dirs (clone net r w).2 ↔ cache_dest r' ∈ dirs w)).
Proof.
  unfold clone. case_bool_decide as Hin.
  - simpl. split; [| done]. split; eauto.
  - destruct (git_clone_ok net (clone_url r)); simpl.
    + split; [split; eauto |]. split; [set_solver |].
      intros r' Hne. rewrite elem_of_union, elem_of_singleton.
      split; [| by right]. intros [Heq | ?]; [| done].
      by apply cache_dest_inj in Heq.
    + split; [| done]. split; [by intros [p ?] | by intros [? | ?]].
Qed.

Lemma clone_effect_witness :
  cache_dest "gonogo-task" ∈ dirs (clone example_net "stroop-task" fresh).2
  ↔ cache_dest "gonogo-task" ∈ dirs fresh.
Proof.
  apply (proj2 (proj2 (clone_effect example_net "stroop-task" fresh)) "gonogo-task").
  discriminate.
Defined.

(** ** Further properties of [build_task] *)

(** X3.  [build_task] never hands out a repository of the exclusion set:
    whatever the remote side answers and whatever [str.lower] does ([low]
    is any lowering function), a returned [template_path] is the cache
    directory of a listed name that is not in [NON_TASK_REPOS] and that
    contains the given source, case ignored. *)
Theorem build_task_never_resolves_excluded
    (low : string → string) (net : remote) (target : string)
    (source : option string) (w w' : world) (prompt dir : string) :
  build_task_by low net target source w = (Ok (Built prompt dir), w') →
  ∃ src r, source = Some src ∧ dir = cache_dest r
           ∧ (r ∉ NON_TASK_REPOS) ∧ ci_contains_by low src r.
Proof.
  unfold build_task_by. unfold_M.
  destruct (task_repos net w) as [[repos|e] w1] eqn:Hrepos; [| done].
  destruct (truthy_opt source) eqn:Hsrc.
  - destruct source as [src|]; [| done]. cbn [default from_option id].
    destruct (first_match_by low src repos) as [[r|]|e] eqn:Hfound;
      cbn [truthy_opt default from_option id]; try done.
    destruct (truthy r); [| done].
    destruct (clone net r w1) as [[p|e] w2] eqn:Hclone; [| done].
    rewrite transform_prompt_rendered. intros [= _ <- _].
    apply first_match_by_member in Hfound as [Hin Hci].
    apply clone_ok_inv in Hclone as (-> & _ & _).
    exists src, r. repeat split; [| done].
    intros Hex. by eapply task_repos_excluded_absent.
  - by destruct (gather_snippets net repos w1) as [[cs|e] w2].
Qed.

Lemma build_task_never_resolves_excluded_witness :
  ∃ src r, Some "stroop-tasK" = Some src ∧ "task_cache/stroop-task" = cache_dest r
           ∧ (r ∉ NON_TASK_REPOS) ∧ ci_contains_by kelvin_lower src r.
Proof.
  refine (build_task_never_resolves_excluded kelvin_lower example_net "flanker"
            (Some "stroop-tasK") fresh _ _ _ _).
  vm_compute. reflexivity.
Defined.

(** The first branch of [build_task], step by step. *)
Lemma build_task_source_eq (net : remote) (target source : string) (w : world) :
  truthy source = true →
  build_task net target (Some source) w =
    match task_repos net w with
    | (Ok repos, w1) =>
        match first_match source repos with
        | Ok found =>
            if truthy_opt found then
              match clone net (default "" found) w1 with
              | (Ok dir, w2) => (Ok (Built (rendered_prompt source target) dir), w2)
              | (Raise e, w2) => (Raise e, w2)
              end
            else (Raise (ValueError "Template repo not found."), w1)
        | Raise e => (Raise e, w1)
        end
    | (Raise e, w1) => (Raise e, w1)
    end.
Proof.
  intros Hsrc. unfold build_task. simpl. rewrite Hsrc. unfold_M.
  destruct (task_repos net w) as [[repos|e] w1]; [| done].
  destruct (first_match source repos) as [found|e]; [| done].
  destruct (truthy_opt found); [| done].
  destruct (clone net (default "" found) w1) as [[dir|e] w2]; [| done].
  by rewrite transform_prompt_rendered.
Qed.

Lemma ci_contains_refl (r : string) : ci_contains r r.
Proof. exists "", "". simpl. by rewrite app_nil_r_str. Qed.

Lemma first_match_split (source : string) (names : list string) :
  Exists (ci_contains source) names →
  ∃ before m after,
    names = before ++ m :: after
    ∧ Forall (λ x, ¬ ci_contains source x) before
    ∧ ci_contains source m.
Proof.
  induction names as [|n names IH]; intros Hex; [by inversion Hex |].
  destruct (str_in (lower source) (lower n)) eqn:E.
  - exists [], n, names. split; [done |]. split; [constructor |].
    by apply str_in_ci_contains.
  - assert (Hn : ¬ ci_contains source n).
    { rewrite <- str_in_ci_contains. by rewrite E. }
    inversion Hex as [? ? Hhd | ? ? Htl]; subst; [done |].
    destruct (IH Htl) as (before & m & after & -> & Hbefore & Hm).
    exists (n :: before), m, after. split; [done |]. split; [by constructor | done].
Qed.

(** X4.  Every catalog name is accepted as [source_task].  With a listed,
    non-empty name [r] as source, [build_task] never answers not-found: it
    resolves to the first listed name [m] that contains [r], case ignored
    (which is [r] itself unless an earlier name contains it), and then
    returns or raises exactly as the clone of [m] does. *)
Theorem build_task_accepts_catalog_name
    (net : remote) (target r : string) (w w1 : world) (names : list string) :
  r ≠ "" →
  task_repos net w = (Ok (SStr <$> names), w1) →
  r ∈ names →
  ∃ before m after,
    names = before ++ m :: after
    ∧ Forall (λ x, ¬ ci_contains r x) before
    ∧ ci_contains r m
    ∧ build_task net target (Some r) w
      = (match (clone net m w1).1 with
         | Ok dir => Ok (Built (rendered_prompt r target) dir)
         | Raise e => Raise e
         end, (clone net m w1).2).
Proof.
  intros Hr Hrepos Hin.
  destruct (first_match_split r names) as (before & m & after & -> & Hbefore & Hm).
  { apply Exists_exists. exists r. split; [done | apply ci_contains_refl]. }
  exists before, m, after. repeat split; [done .. |].
  unfold build_task. simpl. rewrite truthy_true by done.
  unfold mbind at 1. unfold M_mbind, M_bind. rewrite Hrepos.
  unfold lift at 1. unfold mbind at 1. unfold M_mbind, M_bind.
  rewrite first_match_found by done. simpl.
  rewrite truthy_true by (by eapply ci_contains_nonempty).
  unfold mbind at 1. unfold M_mbind, M_bind.
  destruct (clone net m w1) as [[dir|e] w2]; [| done].
  by rewrite transform_prompt_rendered.
Qed.

Lemma build_task_accepts_catalog_name_witness :
  ∃ before m after,
    ["stroop-task-v2"; "stroop-task"] = before ++ m :: after
    ∧ Forall (λ x, ¬ ci_contains "stroop-task" x) before
    ∧ ci_contains "stroop-task" m
    ∧ build_task shadow_net "flanker" (Some "stroop-task") fresh
      = (match (clone shadow_net m (World ∅ [] [repos_url])).1 with
         | Ok dir => Ok (Built (rendered_prompt "stroop-task" "flanker") dir)
         | Raise e => Raise e
         end, (clone shadow_net m (World ∅ [] [repos_url])).2).
Proof.
  refine (build_task_accepts_catalog_name shadow_net "flanker" "stroop-task" fresh
            (World ∅ [] [repos_url]) ["stroop-task-v2"; "stroop-task"] _ _ _).
  - discriminate.
  - vm_compute. reflexivity.
  - apply list_elem_of_further, list_elem_of_here.
Defined.

(** The shadowing is real: in an organisation listing [stroop-task-v2]
    before [stroop-task], the source [stroop-task] clones the former. *)
Example build_task_exact_name_shadowed :
  (build_task shadow_net "flanker" (Some "stroop-task") fresh).1
  = Ok (Built (rendered_prompt "stroop-task" "flanker") "task_cache/stroop-task-v2").
Proof. vm_compute. reflexivity. Qed.

Lemma lower_char_idem (c : ascii) : lower_char (lower_char c) = lower_char c.
Proof. by destruct c as [[] [] [] [] [] [] [] []]. Qed.

Lemma lower_idem (s : string) : lower (lower s) = lower s.
Proof. induction s as [|c s IH]; simpl; [done |]. by rewrite lower_char_idem, IH. Qed.

Lemma truthy_lower (s : string) : truthy (lower s) = truthy s.
Proof. by destruct s. Qed.

Lemma first_match_lower (source : string) (repos : list scalar) :
  first_match (lower source) repos = first_match source repos.
Proof.
  induction repos as [|v repos IH]; simpl; [done |].
  by rewrite lower_idem, IH.
Qed.

(** X5.  The resolution does not look at the case of [source_task]: with
    the source lowered, [build_task] leaves the same world, and when it
    returns a template it is the same [template_path] (the prompt carries
    the source as spelled). *)
Theorem build_task_source_case_blind
    (net : remote) (target source : string) (w : world) :
  (build_task net target (Some (lower source)) w).2
  = (build_task net target (Some source) w).2
  ∧ ∀ prompt dir,
      (build_task net target (Some source) w).1 = Ok (Built prompt dir) →
      (build_task net target (Some (lower source)) w).1
      = Ok (Built (rendered_prompt (lower source) target) dir).
Proof.
  destruct (truthy source) eqn:Hsrc.
  - rewrite !build_task_source_eq by (by rewrite ?truthy_lower).
    destruct (task_repos net w) as [[repos|e] w1]; [| done].
    rewrite first_match_lower.
    destruct (first_match source repos) as [found|e]; [| done].
    destruct (truthy_opt found); [| done].
    destruct (clone net (default "" found) w1) as [[dir|e] w2]; [| done].
    split; [done |]. by intros prompt dir' [= _ <-].
  - destruct source; [| done]. split; [done |].
    intros prompt dir. rewrite build_task_no_source_eq by done.
    destruct (task_repos net w) as [[repos|e] w1]; [| done].
    by destruct (gather_snippets net repos w1) as [[cs|e] w2].
Qed.

Lemma build_task_source_case_blind_witness :
  (build_task example_net "flanker" (Some (lower "STROOP")) fresh).1
  = Ok (Built (rendered_prompt (lower "STROOP") "flanker") "task_cache/stroop-task").
Proof.
  refine (proj2 (build_task_source_case_blind example_net "flanker" "STROOP" fresh)
            (rendered_prompt "STROOP" "flanker") "task_cache/stroop-task" _).
  vm_compute. reflexivity.
Defined.

(** X6.  With an explicit source [build_task] makes exactly one request,
    the catalog request, whatever it finds and however it ends: no README
    is fetched on this branch. *)
Theorem build_task_explicit_source_one_request
    (net : remote) (target source : string) (w : world) :
  source ≠ "" →
  http_log (build_task net target (Some source) w).2 = http_log w ++ [repos_url].
Proof.
  intros Hsrc. rewrite build_task_source_eq by (by apply truthy_true).
  pose proof (task_repos_world net w) as Hw.
  destruct (task_repos net w) as [[repos|e] w1]; simpl in Hw; subst w1; [| done].
  destruct (first_match source repos) as [found|e]; [| done].
  destruct (truthy_opt found); [| done].
  set (w1 := World _ _ _).
  pose proof (clone_http_log net (default "" found) w1) as Hc.
  by destruct (clone net (default "" found) w1) as [[dir|e] w2].
Qed.

Lemma build_task_explicit_source_one_request_witness :
  http_log (build_task example_net "flanker" (Some "Stroop") fresh).2
  = http_log fresh ++ [repos_url].
Proof.
  apply (build_task_explicit_source_one_request example_net "flanker" "Stroop" fresh).
  discriminate.
Defined.

Lemma gather_snippets_http_log (net : remote) (repos : list scalar) (w : world) :
  Forall (λ r, ∃ rd, http_get net (readme_url (py_str r)) = Got rd) repos →
  http_log (gather_snippets net repos w).2
  = http_log w ++ ((λ r, readme_url (py_str r)) <$> repos).
Proof.
  revert w. induction repos as [|r repos IH]; intros w Hall; simpl.
  - by rewrite app_nil_r.
  - inversion Hall as [|? ? [rd Hrd] Hrest]; subst.
    unfold_M. rewrite get_eq, Hrd.
    set (w' := World _ _ _). specialize (IH w' Hrest).
    destruct (gather_snippets net repos w') as [[cs|e] w'']; simpl in *;
      by rewrite IH, <- app_assoc.
Qed.

(** X7.  Without a source [build_task] requests the catalog and then one
    README per catalog repository, in catalog order, and nothing else. *)
Theorem build_task_no_source_requests
    (net : remote) (target : string) (w w1 : world) (repos : list scalar) :
  task_repos net w = (Ok repos, w1) →
  Forall (λ r, ∃ rd, http_get net (readme_url (py_str r)) = Got rd) repos →
  http_log (build_task net target None w).2
  = http_log w ++ repos_url :: ((λ r, readme_url (py_str r)) <$> repos).
Proof.
  intros Hrepos Hall. rewrite build_task_no_source_eq, Hrepos by done.
  pose proof (task_repos_world net w) as Hw. rewrite Hrepos in Hw. simpl in Hw.
  pose proof (gather_snippets_http_log net repos w1 Hall) as Hg.
  destruct (gather_snippets net repos w1) as [[cs|e] w2]; simpl in *;
    rewrite Hg, Hw; simpl; by rewrite <- app_assoc.
Qed.

Lemma build_task_no_source_requests_witness :
  http_log (build_task example_net "flanker" None fresh).2
  = [repos_url; readme_url "stroop-task"; readme_url "gonogo-task"].
Proof.
  refine (build_task_no_source_requests example_net "flanker" fresh
            (World ∅ [] [repos_url]) [SStr "stroop-task"; SStr "gonogo-task"] _ _).
  - vm_compute. reflexivity.
  - repeat constructor; eexists; vm_compute; reflexivity.
Defined.

(** X8.  The cache carries over from one [build_task] to the next: after a
    call that returned a template, the same call again returns the same
    prompt and path, starts no clone and leaves the directories as they
    are; it only repeats the catalog request. *)
Theorem build_task_again_hits_cache
    (net : remote) (target source : string) (w w1 : world) (prompt dir : string) :
  build_task net target (Some source) w = (Ok (Built prompt dir), w1) →
  build_task net target (Some source) w1
  = (Ok (Built prompt dir),
     World (dirs w1) (git_log w1) (http_log w1 ++ [repos_url])).
Proof.
  destruct (truthy source) eqn:Hsrc.
  - rewrite !build_task_source_eq by done.
    pose proof (task_repos_outcome net w w1) as Hout.
    pose proof (task_repos_world net w1) as Hw1.
    destruct (task_repos net w) as [[repos|e] wa]; [| done].
    destruct (task_repos net w1) as [o wb]. simpl in Hout, Hw1. subst o wb.
    destruct (first_match source repos) as [found|e]; [| done].
    destruct (truthy_opt found); [| done].
    destruct (clone net (default "" found) wa) as [[p|e] w2] eqn:Hclone; [| done].
    intros [= <- <- ->].
    apply clone_ok_inv in Hclone as (-> & Hin & _).
    by rewrite clone_hit.
  - rewrite build_task_no_source_eq by done.
    destruct (task_repos net w) as [[repos|e] wa]; [| done].
    by destruct (gather_snippets net repos wa) as [[cs|e] w2].
Qed.

Lemma build_task_again_hits_cache_witness :
  build_task example_net "flanker" (Some "Stroop") warm
  = (Ok (Built (rendered_prompt "Stroop" "flanker") "task_cache/stroop-task"),
     World (dirs warm) (git_log warm) (http_log warm ++ [repos_url])).
Proof.
  apply (build_task_again_hits_cache example_net "flanker" "Stroop" fresh warm).
  vm_compute. reflexivity.
Defined.

(** ** The catalog failing *)

Lemma task_repos_refused (net : remote) (w : world) (rd : response) :
  http_get net repos_url = Got rd →
  ¬ (200 ≤ status_code rd < 300) →
  task_repos net w
  = (Raise HTTPStatusError, World (dirs w) (git_log w) (http_log w ++ [repos_url])).
Proof.
  intros Hget Hstatus. rewrite task_repos_eq, Hget. unfold_M.
  unfold raise_for_status. by rewrite bool_decide_eq_false_2.
Qed.

(** X9.  A refused catalog request is fatal to every tool that lists the
    repositories.  When the hosting API answers the catalog request with a
    status outside 200..299, [build_task] (with or without a source),
    [download_task] and [list_tasks] all raise the status error after that
    single request, whatever the body says: nothing is cloned and no other
    request is made. *)
Theorem catalog_refusal_is_fatal (net : remote) (w : world) (rd : response) :
  http_get net repos_url = Got rd →
  ¬ (200 ≤ status_code rd < 300) →
  let refused :=
    World (dirs w) (git_log w) (http_log w ++ [repos_url]) in
  (∀ target source,
     build_task net target source w = (Raise HTTPStatusError, refused))
  ∧ (∀ name, download_task net name w = (Raise HTTPStatusError, refused))
  ∧ list_tasks net w = (Raise HTTPStatusError, refused).
Proof.
  intros Hget Hstatus refused.
  pose proof (task_repos_refused net w rd Hget Hstatus) as Hrepos.
  split; [| split].
  - intros target source. unfold build_task. unfold_M. by rewrite Hrepos.
  - intros name. unfold download_task. unfold_M. by rewrite Hrepos.
  - unfold list_tasks. unfold_M. by rewrite Hrepos.
Qed.

Lemma catalog_refusal_is_fatal_witness :
  (∀ target source,
     build_task refused_net target source fresh
     = (Raise HTTPStatusError, World ∅ [] [repos_url]))
  ∧ (∀ name,
       download_task refused_net name fresh
       = (Raise HTTPStatusError, World ∅ [] [repos_url]))
  ∧ list_tasks refused_net fresh = (Raise HTTPStatusError, World ∅ [] [repos_url]).
Proof.
  refine (catalog_refusal_is_fatal refused_net fresh
            (Response 403 "rate limit exceeded" (Some not_found_body)) _ _).
  - reflexivity.
  - simpl. lia.
Defined.

(** ** [download_task] *)

Lemma str_in_list_spec (name : string) (repos : list scalar) :
  str_in_list name repos = true ↔ SStr name ∈ repos.
Proof.
  unfold str_in_list. induction repos as [|v repos IH]; simpl.
  - split; [done | by intros ?%not_elem_of_nil].
  - rewrite orb_true_iff, IH, elem_of_cons. split.
    + intros [Hv | ?]; [| by right]. left.
      destruct v; try done. by apply bool_decide_eq_true in Hv as ->.
    + intros [<- | ?]; [| by right]. left. by apply bool_decide_eq_true.
Qed.

Lemma download_task_eq (net : remote) (name : string) (w : world) :
  download_task net name w =
    match task_repos net w with
    | (Ok repos, w1) =>
        if str_in_list name repos then clone net name w1
        else (Raise (ValueError "Repo not found or not a task template."), w1)
    | (Raise e, w1) => (Raise e, w1)
    end.
Proof.
  unfold download_task. unfold_M.
  destruct (task_repos net w) as [[repos|e] w1]; [| done].
  destruct (str_in_list name repos); simpl; [| done].
  by destruct (clone net name w1) as [[p|e] w2].
Qed.

(** X10.  [download_task] never clones a repository of the exclusion set,
    even when the hosting API lists it: for such a name the call returns
    nothing and leaves the disk as it was, and when the catalog request
    succeeds it raises the not-a-task-template error. *)
Theorem download_task_refuses_excluded (net : remote) (name : string) (w : world) :
  name ∈ NON_TASK_REPOS →
  same_disk w (download_task net name w).2
  ∧ (∀ dir, (download_task net name w).1 ≠ Ok dir)
  ∧ (∀ repos w1,
       task_repos net w = (Ok repos, w1) →
       download_task net name w
       = (Raise (ValueError "Repo not found or not a task template."), w1)).
Proof.
  intros Hex. rewrite download_task_eq.
  pose proof (task_repos_frame net w) as Hframe.
  destruct (task_repos net w) as [[repos|e] w1] eqn:Hrepos; simpl in Hframe;
    [| by split; [apply Hframe |]].
  assert (Hnot : str_in_list name repos = false).
  { apply not_true_is_false. rewrite str_in_list_spec.
    by eapply task_repos_excluded_absent. }
  rewrite Hnot. split; [apply Hframe |]. split; [done |].
  by intros repos' w1' [= <- <-].
Qed.

Lemma download_task_refuses_excluded_witness :
  download_task example_net "task-registry" fresh
  = (Raise (ValueError "Repo not found or not a task template."),
     World ∅ [] [repos_url]).
Proof.
  refine (proj2 (proj2 (download_task_refuses_excluded example_net "task-registry" fresh _))
            [SStr "stroop-task"; SStr "gonogo-task"] _ _).
  - apply non_task_repos_exact. by left.
  - vm_compute. reflexivity.
Defined.

(** X11.  [download_task] takes the name literally.  With the catalog
    listed, a name that is one of its entries is cloned into its cache
    directory, the call ending as [clone] ends; any other name, and so a
    part of a name or a name in another case, is refused with the disk
    untouched. *)
Theorem download_task_exact_name
    (net : remote) (name : string) (w w1 : world) (names : list string) :
  task_repos net w = (Ok (SStr <$> names), w1) →
  (name ∈ names → download_task net name w = clone net name w1)
  ∧ (name ∉ names →
     download_task net name w
     = (Raise (ValueError "Repo not found or not a task template."), w1)
     ∧ same_disk w w1).
Proof.
  intros Hrepos. rewrite download_task_eq, Hrepos.
  assert (Hiff : str_in_list name (SStr <$> names) = true ↔ name ∈ names).
  { rewrite str_in_list_spec, list_elem_of_fmap. split.
    - by intros [y [[= ->] ?]].
    - intros ?. by exists name. }
  split.
  - intros Hin. apply Hiff in Hin. by rewrite Hin.
  - intros Hnot. rewrite <- Hiff in Hnot. apply not_true_is_false in Hnot.
    rewrite Hnot. split; [done |].
    pose proof (task_repos_frame net w) as H. by rewrite Hrepos in H.
Qed.

Lemma download_task_exact_name_witness :
  (("Stroop" : string) ∈ ["stroop-task"; "gonogo-task"] →
   download_task example_net "Stroop" fresh
   = clone example_net "Stroop" (World ∅ [] [repos_url]))
  ∧ (("Stroop" : string) ∉ ["stroop-task"; "gonogo-task"] →
     download_task example_net "Stroop" fresh
     = (Raise (ValueError "Repo not found or not a task template."),
        World ∅ [] [repos_url])
     ∧ same_disk fresh (World ∅ [] [repos_url])).
Proof.
  apply (download_task_exact_name example_net "Stroop" fresh (World ∅ [] [repos_url])
           ["stroop-task"; "gonogo-task"]).
  vm_compute. reflexivity.
Defined.

(** X12.  The cache is shared between the tools.  After [download_task]
    returned the directory of a repository, a later [build_task] that
    resolves to the same directory starts no clone and adds no directory. *)
Theorem download_then_build_shares_cache
    (net : remote) (name target source : string) (w w1 w2 w3 : world)
    (dir prompt : string) :
  download_task net name w = (Ok dir, w1) →
  same_disk w1 w2 →
  build_task net target (Some source) w2 = (Ok (Built prompt dir), w3) →
  same_disk w2 w3.
Proof.
  rewrite download_task_eq.
  destruct (task_repos net w) as [[repos|e] wa]; [| done].
  destruct (str_in_list name repos); [| done].
  intros Hclone [Hdirs _] Hbuild.
  apply clone_ok_inv in Hclone as (-> & Hin & _).
  destruct (truthy source) eqn:Hsrc.
  - rewrite build_task_source_eq in Hbuild by done.
    pose proof (task_repos_frame net w2) as Hframe.
    destruct (task_repos net w2) as [[repos2|e] wb]; [| done].
    destruct (first_match source repos2) as [found|e]; [| done].
    destruct (truthy_opt found); [| done].
    destruct (clone net (default "" found) wb) as [[p|e] wc] eqn:Hclone2; [| done].
    injection Hbuild as _ -> ->.
    pose proof Hclone2 as Hinv. apply clone_ok_inv in Hinv as (Heq & _ & _).
    apply cache_dest_inj in Heq. rewrite <- Heq in Hclone2.
    simpl in Hframe. destruct Hframe as [Hd Hg].
    rewrite clone_hit in Hclone2 by (by rewrite Hd, Hdirs).
    injection Hclone2 as <-. by split.
  - rewrite build_task_no_source_eq in Hbuild by done.
    destruct (task_repos net w2) as [[repos2|e] wb]; [| done].
    by destruct (gather_snippets net repos2 wb) as [[cs|e] wc].
Qed.

Lemma download_then_build_shares_cache_witness :
  same_disk warm
    (World (dirs warm) (git_log warm) (http_log warm ++ [repos_url])).
Proof.
  refine (download_then_build_shares_cache example_net "stroop-task" "flanker" "Stroop"
            fresh warm warm _ "task_cache/stroop-task"
            (rendered_prompt "Stroop" "flanker") _ _ _).
  - vm_compute. reflexivity.
  - apply same_disk_refl.
  - vm_compute. reflexivity.
Defined.

(** ** Further properties of the branch inspector *)

Lemma names_of_length (xs : list json) (ns : list json) :
  names_of xs = Ok ns → length ns = length xs.
Proof.
  revert ns. induction xs as [|x xs IH]; intros ns; simpl; [by intros [= <-] |].
  unfold_M. destruct (py_getitem x "name") as [n|]; [| done].
  destruct (names_of xs) as [ns'|]; [| done].
  intros [= <-]. simpl. by rewrite (IH ns').
Qed.

Lemma names_of_raises (xs : list json) :
  Exists (λ x, ∀ v, py_getitem x "name" ≠ Ok v) xs → ∃ e, names_of xs = Raise e.
Proof.
  induction 1 as [x xs Hx | x xs _ [e IH]]; simpl; unfold_M.
  - destruct (py_getitem x "name") as [v|e]; [by destruct (Hx v) | eauto].
  - destruct (py_getitem x "name") as [v|e']; [| eauto]. rewrite IH. eauto.
Qed.

(** X13.  The bound the branch inspector keeps is twenty.  Whatever the
    remote side answers, a returned sequence has at most twenty entries;
    on a listing of named branches it is the first twenty names of the
    upstream list, which is the whole list when there are no more. *)
Theorem repo_branches_at_most_twenty (net : remote) (name : string) (w : world) :
  (∀ bs w', _repo_branches net name w = (Ok bs, w') → (length bs ≤ 20)%nat)
  ∧ (∀ rd xs names,
       http_get net (branches_url name) = Got rd →
       json_body rd = Some (JArr xs) →
       Forall2 named xs names →
       (_repo_branches net name w).1
       = Ok ((λ b, JScalar (SStr b)) <$> take 20 names)
       ∧ ((length names ≤ 20)%nat →
          (_repo_branches net name w).1 = Ok ((λ b, JScalar (SStr b)) <$> names))).
Proof.
  split.
  - intros bs w'. rewrite repo_branches_eq. intros [= H _].
    destruct (http_get net (branches_url name)) as [rd|]; [| done]. unfold_M.
    destruct (json_of rd) as [body|]; [| done].
    destruct (py_iter body) as [xs|]; [| done].
    destruct (names_of xs) as [ns|]; [| done].
    injection H as <-. rewrite length_take. lia.
  - intros rd xs names Hget Hbody Hnamed.
    assert (Hres : (_repo_branches net name w).1
                   = Ok ((λ b, JScalar (SStr b)) <$> take 20 names)).
    { rewrite repo_branches_eq, Hget. simpl. unfold_M. unfold json_of.
      rewrite Hbody. simpl. rewrite (names_of_named xs names) by done.
      by rewrite fmap_take. }
    split; [done |]. intros Hlen. by rewrite Hres, take_ge.
Qed.

Lemma repo_branches_at_most_twenty_witness :
  (_repo_branches listing_net "stroop-task" fresh).1
  = Ok [JScalar (SStr "main"); JScalar (SStr "dev")].
Proof.
  refine (proj2 (proj2 (repo_branches_at_most_twenty listing_net "stroop-task" fresh)
                   (Response 200 "" (Some (JArr [branch_obj "main"; branch_obj "dev"])))
                   [branch_obj "main"; branch_obj "dev"] ["main"; "dev"] _ _ _) _).
  - reflexivity.
  - reflexivity.
  - repeat constructor.
  - simpl. lia.
Defined.

(** X14.  The names are read before the list is cut: one upstream entry
    that is not an object with a [name], even past the twentieth, makes
    the whole call raise. *)
Theorem repo_branches_malformed_entry_raises
    (net : remote) (name : string) (w : world) (rd : response) (xs : list json) :
  http_get net (branches_url name) = Got rd →
  json_body rd = Some (JArr xs) →
  Exists (λ x, ∀ v, py_getitem x "name" ≠ Ok v) xs →
  ∃ e, (_repo_branches net name w).1 = Raise e.
Proof.
  intros Hget Hbody Hbad. rewrite repo_branches_eq, Hget. simpl. unfold_M.
  unfold json_of. rewrite Hbody. simpl.
  destruct (names_of_raises xs Hbad) as [e ->]. eauto.
Qed.

Lemma repo_branches_malformed_entry_raises_witness :
  ∃ e, (_repo_branches
          (Remote (λ _, Got (Response 200 ""
                               (Some (JArr ((branch_obj <$> replicate 20 "b")
                                            ++ [JScalar SNone])))))
                  (λ _, true))
          "stroop-task" fresh).1 = Raise e.
Proof.
  refine (repo_branches_malformed_entry_raises _ "stroop-task" fresh _ _ _ _ _).
  - reflexivity.
  - reflexivity.
  - apply Exists_app. right. apply Exists_cons_hd. intros v. vm_compute. discriminate.
Defined.

Lemma repo_branches_outcome (net : remote) (name : string) (w w' : world) :
  (_repo_branches net name w).1 = (_repo_branches net name w').1.
Proof. by rewrite !repo_branches_eq. Qed.

Lemma repo_branches_frame (net : remote) (name : string) (w : world) :
  same_disk w (_repo_branches net name w).2.
Proof. rewrite repo_branches_eq. by split. Qed.

(** ** [list_tasks] *)

Lemma build_entry_frame (net : remote) (r : scalar) (w : world) :
  same_disk w (build_entry net r w).2.
Proof.
  unfold build_entry. unfold_M. rewrite get_eq.
  destruct (http_get net _) as [rd|]; [| by split].
  set (w' := World _ _ _).
  pose proof (repo_branches_frame net (py_str r) w') as H.
  by destruct (_repo_branches net (py_str r) w') as [[bs|e] w''].
Qed.

Lemma gather_entries_frame (net : remote) (repos : list scalar) (w : world) :
  same_disk w (gather_entries net repos w).2.
Proof.
  revert w. induction repos as [|r repos IH]; intros w; simpl; [by split |].
  unfold_M. pose proof (build_entry_frame net r w) as H1.
  destruct (build_entry net r w) as [[e|e] w1]; [| done].
  specialize (IH w1).
  destruct (gather_entries net repos w1) as [[es|e'] w2];
    by eapply same_disk_trans.
Qed.

Lemma build_entry_ok (net : remote) (r : scalar) (w : world)
    (rd : response) (names : list string) :
  listable net r rd names →
  (build_entry net r w).1
  = Ok (Entry.mk r (snippet_of rd) ((λ b, JScalar (SStr b)) <$> take 20 names)).
Proof.
  intros [Hrd (rb & xs & Hrb & Hbody & Hnamed)].
  unfold build_entry. unfold_M. rewrite get_eq, Hrd.
  set (w' := World _ _ _).
  pose proof (repo_branches_first_twenty net (py_str r) w' rb xs names Hrb Hbody Hnamed)
    as H.
  destruct (_repo_branches net (py_str r) w') as [[bs|e] w'']; simpl in H; [| done].
  by injection H as ->.
Qed.

Lemma gather_entries_ok (net : remote) (repos : list scalar) (w : world) :
  Forall (λ r, ∃ rd names, listable net r rd names) repos →
  ∃ es, (gather_entries net repos w).1 = Ok es
        ∧ Forall2 (λ r e, ∃ rd names,
                     listable net r rd names
                     ∧ e = Entry.mk r (snippet_of rd)
                             ((λ b, JScalar (SStr b)) <$> take 20 names)) repos es.
Proof.
  revert w. induction repos as [|r repos IH]; intros w Hall; simpl.
  - exists []. by split.
  - inversion Hall as [|? ? (rd & names & Hr) Hrest]; subst.
    unfold_M. pose proof (build_entry_ok net r w rd names Hr) as He.
    destruct (build_entry net r w) as [[e|e] w1]; simpl in He; [| done].
    injection He as ->.
    destruct (IH w1 Hrest) as [es [Hes Hrel]].
    destruct (gather_entries net repos w1) as [[es'|e'] w2]; simpl in Hes; [| done].
    injection Hes as ->. eexists. split; [done |].
    constructor; [| done]. by exists rd, names.
Qed.

Lemma gather_entries_raises (net : remote) (repos : list scalar) (w : world) :
  Exists (λ r, http_get net (readme_url (py_str r)) = Failed
               ∨ ∃ e w0, (_repo_branches net (py_str r) w0).1 = Raise e) repos →
  ∃ e, (gather_entries net repos w).1 = Raise e.
Proof.
  revert w. induction repos as [|r repos IH]; intros w Hex; [by inversion Hex |].
  simpl. unfold_M.
  destruct (build_entry net r w) as [[e|e] w1] eqn:Hentry; [| eauto].
  inversion Hex as [? ? Hr | ? ? Hrest]; subst.
  - exfalso. revert Hentry. unfold build_entry. unfold_M. rewrite get_eq.
    destruct Hr as [-> | (e' & w0 & Hb)]; [done |].
    destruct (http_get net _) as [rd|]; [| done].
    set (w' := World _ _ _). rewrite (repo_branches_outcome net _ w0 w') in Hb.
    destruct (_repo_branches net (py_str r) w') as [[bs|e''] w'']; simpl in Hb; done.
  - destruct (IH w1 Hrest) as [e' He'].
    destruct (gather_entries net repos w1) as [[es|e''] w2]; simpl in He'; [done |].
    eauto.
Qed.

(** X15.  [list_tasks] only reads: whatever the remote side answers, it
    starts no clone and creates no directory. *)
Theorem list_tasks_never_clones (net : remote) (w : world) :
  same_disk w (list_tasks net w).2.
Proof.
  unfold list_tasks. unfold_M.
  pose proof (task_repos_frame net w) as H1.
  destruct (task_repos net w) as [[repos|e] w1]; [| done].
  pose proof (gather_entries_frame net repos w1) as H2.
  destruct (gather_entries net repos w1) as [[es|e] w2];
    by eapply same_disk_trans.
Qed.

(** X16.  When the catalog, every README request and every branch request
    complete with well-formed answers, [list_tasks] returns one entry per
    catalog repository, in catalog order; each entry carries the
    repository, its snippet (at most 2000 characters, no newline) and the
    first twenty of its branch names. *)
Theorem list_tasks_entries (net : remote) (w w1 : world) (repos : list scalar) :
  task_repos net w = (Ok repos, w1) →
  Forall (λ r, ∃ rd names, listable net r rd names) repos →
  ∃ es,
    (list_tasks net w).1 = Ok es
    ∧ Forall2
        (λ r e,
           Entry.repo e = r
           ∧ (char_length (Entry.readme_snippet e) ≤ 2000)%nat
           ∧ has_char "010"%char (Entry.readme_snippet e) = false
           ∧ (length (Entry.branches e) ≤ 20)%nat
           ∧ ∃ rd names,
               listable net r rd names
               ∧ Entry.readme_snippet e = snippet_of rd
               ∧ Entry.branches e = (λ b, JScalar (SStr b)) <$> take 20 names)
        repos es.
Proof.
  intros Hrepos Hall. unfold list_tasks. unfold_M. rewrite Hrepos.
  destruct (gather_entries_ok net repos w1 Hall) as [es [Hes Hrel]].
  destruct (gather_entries net repos w1) as [[es'|e] w2]; simpl in Hes; [| done].
  injection Hes as ->. exists es. split; [done |].
  eapply Forall2_impl; [exact Hrel |].
  intros r e (rd & names & Hr & ->). simpl.
  split; [done |]. split; [apply snippet_of_length |].
  split; [apply snippet_of_no_newline |].
  split; [rewrite length_fmap, length_take; lia |].
  by exists rd, names.
Qed.

Lemma list_tasks_entries_witness :
  ∃ es,
    (list_tasks listing_net fresh).1 = Ok es
    ∧ Forall2
        (λ r e,
           Entry.repo e = r
           ∧ (char_length (Entry.readme_snippet e) ≤ 2000)%nat
           ∧ has_char "010"%char (Entry.readme_snippet e) = false
           ∧ (length (Entry.branches e) ≤ 20)%nat
           ∧ ∃ rd names,
               listable listing_net r rd names
               ∧ Entry.readme_snippet e = snippet_of rd
               ∧ Entry.branches e = (λ b, JScalar (SStr b)) <$> take 20 names)
        [SStr "stroop-task"; SStr "gonogo-task"] es.
Proof.
  refine (list_tasks_entries listing_net fresh (World ∅ [] [repos_url])
            [SStr "stroop-task"; SStr "gonogo-task"] _ _).
  - vm_compute. reflexivity.
  - constructor; [| constructor; [| constructor]].
    + exists (Response 200 ("# Stroop" +:+ NL +:+ "A colour-word task.") None),
        ["main"; "dev"].
      split; [reflexivity |]. eexists _, _.
      split; [reflexivity |]. split; [reflexivity |]. repeat constructor.
    + exists not_found, ["main"].
      split; [reflexivity |]. eexists _, _.
      split; [reflexivity |]. split; [reflexivity |]. repeat constructor.
Defined.

(** X17.  One repository is enough to lose the whole listing: when the
    README request of some catalog repository does not complete, or its
    branch listing makes the inspector raise, [list_tasks] raises and
    returns no entry at all. *)
Theorem list_tasks_all_or_nothing (net : remote) (w w1 : world) (repos : list scalar) :
  task_repos net w = (Ok repos, w1) →
  Exists (λ r, http_get net (readme_url (py_str r)) = Failed
               ∨ ∃ e w0, (_repo_branches net (py_str r) w0).1 = Raise e) repos →
  ∃ e, (list_tasks net w).1 = Raise e.
Proof.
  intros Hrepos Hex. unfold list_tasks. unfold_M. rewrite Hrepos.
  destruct (gather_entries_raises net repos w1 Hex) as [e He].
  destruct (gather_entries net repos w1) as [[es|e'] w2]; simpl in He; [done |].
  eauto.
Qed.

Lemma list_tasks_all_or_nothing_witness :
  ∃ e, (list_tasks listing_net_404 fresh).1 = Raise e.
Proof.
  refine (list_tasks_all_or_nothing listing_net_404 fresh (World ∅ [] [repos_url])
            [SStr "stroop-task"; SStr "gonogo-task"] _ _).
  - vm_compute. reflexivity.
  - apply Exists_cons_tl, Exists_cons_hd. right. exists TypeError, fresh.
    vm_compute. reflexivity.
Defined.

(** X18.  The inspector never looks at the status of the response: the
    same body under any other status code and text gives the same outcome
    and the same world. *)
Theorem repo_branches_status_blind
    (net : remote) (name : string) (w : world) (rd : response)
    (status : Z) (shown : string) :
  http_get net (branches_url name) = Got rd →
  _repo_branches
    (Remote (λ url, if bool_decide (url = branches_url name)
                    then Got (Response status shown (json_body rd))
                    else http_get net url)
            (git_clone_ok net))
    name w
  = _repo_branches net name w.
Proof.
  intros Hget. rewrite !repo_branches_eq, Hget. cbn [http_get].
  by rewrite bool_decide_eq_true_2.
Qed.

Lemma repo_branches_status_blind_witness :
  _repo_branches
    (Remote (λ url, if bool_decide (url = branches_url "stroop-task")
                    then Got (Response 500 "Server Error"
                                (Some (JArr [branch_obj "main"; branch_obj "dev"])))
                    else http_get listing_net url)
            (git_clone_ok listing_net))
    "stroop-task" fresh
  = _repo_branches listing_net "stroop-task" fresh.
Proof.
  apply (repo_branches_status_blind listing_net "stroop-task" fresh
           (Response 200 "" (Some (JArr [branch_obj "main"; branch_obj "dev"])))
           500 "Server Error").
  reflexivity.
Defined.

(** ** The selection prompt and the snippet *)

(** X19.  [choose_template_prompt] always returns three user messages: an
    instruction that depends on neither argument, the description under
    its header, and the listing.  The listing shows one line per
    candidate, joined by newlines; the placeholder stands in exactly when
    there is no candidate (a candidate with an empty name and an empty
    snippet still has its line). *)
Theorem choose_template_prompt_listing (desc : string) (cs : list candidate) :
  ∃ intro,
    choose_template_prompt desc cs
    = [UserMessage intro;
       UserMessage ("Desired task:" +:+ NL +:+ desc);
       UserMessage ("Candidate templates:" +:+ NL +:+
                    match cs with
                    | [] => "(no templates found)"
                    | _ => join NL (menu_line <$> cs)
                    end)]
    ∧ ∀ desc' cs', choose_template_prompt desc' cs' !! 0%nat = Some (UserMessage intro).
Proof.
  eexists. split; [| done].
  unfold choose_template_prompt. do 3 f_equal.
  destruct cs as [|c cs]; [done |]. rewrite truthy_true; [done |].
  by rewrite join_menu_empty.
Qed.

Lemma replace_char_absent (old new : ascii) (s : string) :
  has_char old s = false → replace_char old new s = s.
Proof.
  induction s as [|c s IH]; simpl; [done |].
  rewrite orb_false_iff, bool_decide_eq_false. intros [Hc Hs].
  rewrite bool_decide_eq_false_2 by done. by rewrite IH.
Qed.

(** X20.  The README snippet of a 200 response has the length of the text
    capped at 2000 characters, and a text of at most 2000 characters
    without a newline comes back unchanged, whatever the number of bytes
    its characters take. *)
Theorem snippet_of_clean_text (rd : response) :
  status_code rd = 200 →
  char_length (snippet_of rd) = Nat.min 2000 (char_length (text rd))
  ∧ ((char_length (text rd) ≤ 2000)%nat →
     has_char "010"%char (text rd) = false →
     snippet_of rd = text rd).
Proof.
  intros Hstatus. unfold snippet_of. rewrite bool_decide_eq_true_2 by done.
  split.
  - by rewrite char_length_replace_char, char_length_take_chars.
  - intros Hlen Hclean. rewrite take_chars_all by done.
    by apply replace_char_absent.
Qed.

Lemma snippet_of_clean_text_witness :
  char_length (snippet_of (Response 200 (str_repeat 1001 "é") None))
  = Nat.min 2000 (char_length (str_repeat 1001 "é"))
  ∧ snippet_of (Response 200 (str_repeat 1001 "é") None) = str_repeat 1001 "é".
Proof.
  destruct (snippet_of_clean_text (Response 200 (str_repeat 1001 "é") None))
    as [Hlen Hsame]; [reflexivity |].
  split; [exact Hlen |]. apply Hsame.
  - apply Nat.leb_le. vm_compute. reflexivity.
  - vm_compute. reflexivity.
Defined.

(** A README of 1001 two-byte characters is kept whole; one of 2001
    characters loses the last. *)
Example snippet_of_counts_characters :
  String.length (str_repeat 1001 "é") = 2002%nat
  ∧ snippet_of (Response 200 (str_repeat 1001 "é") None) = str_repeat 1001 "é"
  ∧ snippet_of (Response 200 (str_repeat 2001 "é") None) = str_repeat 2000 "é".
Proof. repeat split; vm_compute; reflexivity. Qed.

(** ** [translate_config] *)

(** X21.  [translate_config] looks only at [config.yaml] under the given
    path.  When that path does not exist it raises the file-not-found
    error without reading anything; when it exists and can be read, it
    returns exactly two messages, the second being the text of the file,
    unchanged. *)
Theorem translate_config_outcome (fs : files) (task_path target_language : string) :
  (path_exists fs (Join (Path task_path) "config.yaml") = false →
   translate_config fs task_path target_language
   = FileNotFoundError "config.yaml not found in given path.")
  ∧ (∀ yaml_text,
       path_exists fs (Join (Path task_path) "config.yaml") = true →
       read_text fs (Join (Path task_path) "config.yaml") = Some yaml_text →
       ∃ intro,
         translate_config fs task_path target_language
         = Returned [UserMessage intro; UserMessage yaml_text]).
Proof.
  unfold translate_config. split.
  - by intros ->.
  - intros yaml_text -> ->. simpl. by eexists.
Qed.

Lemma translate_config_outcome_witness :
  translate_config example_files "task_cache/gonogo-task" "Spanish"
  = FileNotFoundError "config.yaml not found in given path."
  ∧ ∃ intro,
      translate_config example_files "task_cache/stroop-task" "Spanish"
      = Returned [UserMessage intro;
                  UserMessage "stimuli: [{type: text, text: Hello}]"].
Proof.
  split.
  - apply (proj1 (translate_config_outcome example_files "task_cache/gonogo-task" "Spanish")).
    reflexivity.
  - apply (proj2 (translate_config_outcome example_files "task_cache/stroop-task" "Spanish")
             "stimuli: [{type: text, text: Hello}]"); reflexivity.
Defined.
